(** * tubular.jenkins: triggering a Jenkins build and polling it under a
      bounded exponential backoff schedule.

    Shallow embedding of [src/tubular/jenkins.py] and
    [src/tubular/exception.py].

    Numbers are exact rationals ([Q]): Python's true division, [**] and the
    comparisons are taken at their mathematical value, and [math.log] is taken
    as the real logarithm; rounding in double precision is outside the model.
    Exceptions are values of [exn], fallible code returns an [outcome], and
    code that talks to the Jenkins client runs in a monad that records the
    external calls. *)

From Stdlib Require Import QArith Qpower Qround Qfield ZArith List String Bool Lia Lqa.
Import ListNotations.

Local Open Scope Q_scope.

(** ** Exceptions *)

(** Modelled from the spec: the class [BackendError], which [jenkins.py]
    imports from [tubular.exception] and [tubular/exception.py] does not
    define.  The spec has it as the one error kind shown to callers; the code
    builds it from a message, [BackendError(msg)].  The other constructors
    are the classes of [jenkinsapi] and [requests] named in [jenkins.py],
    Python built-ins, and [OtherException cls msg] for any other class. *)
Inductive exn : Type :=
  | BackendError (msg : string)
  | JenkinsAPIException (msg : string)
  | HTTPError (msg : string)
  | TypeError (msg : string)
  | ValueError (msg : string)
  | ZeroDivisionError (msg : string)
  | ImportError (msg : string)
  | OtherException (cls msg : string).

(** [str(err)] *)
Definition exn_str (e : exn) : string :=
  match e with
  | BackendError m | JenkinsAPIException m | HTTPError m | TypeError m
  | ValueError m | ZeroDivisionError m | ImportError m => m
  | OtherException _ m => m
  end.

Definition is_BackendError (e : exn) : bool :=
  match e with BackendError _ => true | _ => false end.

Inductive outcome (A : Type) : Type :=
  | Ok (a : A)
  | Raise (e : exn).
Arguments Ok {A} a.
Arguments Raise {A} e.

Definition obind {A B : Type} (m : outcome A) (k : A -> outcome B) : outcome B :=
  match m with
  | Ok a => k a
  | Raise e => Raise e
  end.

Declare Scope outcome_scope.
Delimit Scope outcome_scope with outcome.
Notation "x <- m ;; k" := (obind m (fun x => k))
  (at level 61, m at next level, right associativity) : outcome_scope.

(** ** Arithmetic of the schedule *)

Module Arith.

(** [a / b] on numbers: division by zero raises. *)
Definition py_div (a b : Q) : outcome Q :=
  if Qeq_bool b 0 then Raise (ZeroDivisionError "division by zero")
  else Ok (a / b).

(** Counts how often [pw] can be multiplied by [b] without exceeding [x]. *)
Fixpoint floor_log_loop (fuel : nat) (b x pw : Q) (k : Z) : Z :=
  match fuel with
  | O => k
  | S fuel' =>
      if Qle_bool (pw * b) x
      then floor_log_loop fuel' b x (pw * b) (k + 1)
      else k
  end.

(** For [1 < b] and [1 <= x]: the integer part of the logarithm of [x] in
    base [b].  By Bernoulli's inequality the exponent is at most
    [(x - 1) / (b - 1)], which bounds the search. *)
Definition floor_log (b x : Q) : Z :=
  floor_log_loop (Z.to_nat (Qfloor ((x - 1) / (b - 1)))) b x 1 0.

(** [max q (1/q)] for a positive [q]. *)
Definition above_one (q : Q) : Q := if Qle_bool 1 q then q else / q.

(** [int(log(x)/log(base))] for positive [x] and positive [base <> 1]:
    [int] truncates toward zero, so the magnitude is the integer part of the
    logarithm of [max x (1/x)] in base [max base (1/base)], and the sign is
    positive when [x] and [base] lie on the same side of 1. *)
Definition int_log (x base : Q) : Z :=
  let k := floor_log (above_one base) (above_one x) in
  if Bool.eqb (Qle_bool 1 x) (Qle_bool 1 base) then k else (- k)%Z.

(** [int(math.log(x, base))]: [math.log] raises [ValueError] on a
    non-positive argument or base and divides the two natural logarithms,
    which raises [ZeroDivisionError] for [base = 1]. *)
Definition math_log_int (x base : Q) : outcome Z :=
  if Qle_bool x 0 then Raise (ValueError "math domain error")
  else if Qle_bool base 0 then Raise (ValueError "math domain error")
  else if Qeq_bool base 1 then Raise (ZeroDivisionError "float division by zero")
  else Ok (int_log x base).

(** [sum(l)] *)
Definition Qsum (l : list Q) : Q := fold_right Qplus 0 l.

(** [factor*(base**K - 1)/(base - 1)], the duration of the first [K] waits
    of the exponential progression. *)
Definition exp_sum (base factor : Q) (K : Z) : Q :=
  factor * (base ^ K - 1) / (base - 1).

End Arith.
Import Arith.

(** ** The backoff schedule: [_backoff_timeout] *)

(** The variables the nested generator function [expo] closes over. *)
Record expo_closure : Type := mk_expo {
  expo_factor : Q;
  expo_base : Q;
  expo_tries : Z;
  expo_remainder : Q
}.

(** One [next()] on a generator made by [expo()].  The generator's only local
    state is [n]; the result is the yielded value and the new [n]. *)
Definition expo_next (c : expo_closure) (n : Z) : Q * Z :=
  let a := expo_factor c * expo_base c ^ n in
  if (n >=? expo_tries c)%Z
  then (expo_remainder c, n)
  else (a, (n + 1)%Z).

(** A fresh generator [expo()] starts at [n = 0]. *)
Definition expo (c : expo_closure) : Z := 0%Z.

(** The first [k] values of a generator in state [n]. *)
Fixpoint expo_take (c : expo_closure) (k : nat) (n : Z) : list Q :=
  match k with
  | O => []
  | S k' => let (v, n') := expo_next c n in v :: expo_take c k' n'
  end.

(** The first [k] values yielded by a fresh [wait_gen()]. *)
Definition first_waits (wait_gen : expo_closure) (k : nat) : list Q :=
  expo_take wait_gen k (expo wait_gen).

(** Whether a [next()] in state [n] resumes at [yield remainder] (as opposed
    to [yield a]). *)
Definition at_remainder (c : expo_closure) (n : Z) : bool :=
  (n >=? expo_tries c)%Z.

(** The states [n] in which the first [k] values are produced. *)
Fixpoint expo_states (c : expo_closure) (k : nat) (n : Z) : list Z :=
  match k with
  | O => []
  | S k' => n :: expo_states c k' (snd (expo_next c n))
  end.

(** Lines 57-77 of [_backoff_timeout], after [tries] has been computed. *)
Definition backoff_from_tries (tries : Z) (timeout base factor : Q)
  : outcome (expo_closure * Z) :=
  (s <- py_div (factor * (base ^ tries - 1)) (base - 1) ;;
   let remainder := timeout - s in
   let wait_gen := mk_expo factor base tries remainder in
   if Qeq_bool remainder 0
   then Ok (wait_gen, (tries + 1)%Z)
   else Ok (wait_gen, (tries + 2)%Z))%outcome.

Definition _backoff_timeout (timeout base factor : Q)
  : outcome (expo_closure * Z) :=
  (q <- py_div (timeout * (base - 1)) factor ;;
   tries <- math_log_int (q + 1) base ;;
   backoff_from_tries tries timeout base factor)%outcome.

(** The value of the local variable [tries]. *)
Definition tries_of (sched : expo_closure * Z) : Z := expo_tries (fst sched).

(** ** The Jenkins collaborator and the effects of [trigger_build] *)

(** What the code reads from a [Build] object. *)
Record Build : Type := mk_build {
  build_name : string;
  build_baseurl : string;
  build_repr : string
}.

(** Calls that leave the module, in the order they are made. *)
Inductive event : Type :=
  | EConnect (base_url username password : string)
  | EHasJob (job_name : string)
  | EGetJob (job_name : string)
  | EInvoke (securitytoken : string) (build_params : list (string * string))
            (cause : option string)
  | EBaseServerUrl
  | EBlockUntilBuilding
  | EGetBuild
  | EIsRunning
  | ESleep (value : Q)
  | EGetStatus
  | ELogInfo (msg : string).

(** The answers of the external Jenkins client.  Every call either returns or
    raises; [srv_is_running k] is the answer to the call number [k] (from 0)
    of [build.is_running()]. *)
Record jenkins_server : Type := mk_server {
  srv_connect : outcome unit;
  srv_has_job : string -> outcome bool;
  srv_getitem : string -> outcome unit;
  srv_invoke : outcome string;
  srv_base_server_url : outcome string;
  srv_block_until_building : outcome unit;
  srv_get_build : outcome Build;
  srv_is_running : nat -> outcome bool;
  srv_get_status : outcome string
}.

(** How a run ends: it returns, raises, or is still looping when the fuel of
    the model is used up. *)
Inductive result (A : Type) : Type :=
  | Returned (a : A)
  | Raised (e : exn)
  | Unfinished.
Arguments Returned {A} a.
Arguments Raised {A} e.
Arguments Unfinished {A}.

Module Eff.

(** Computations that append to the trace of external calls. *)
Definition M (A : Type) : Type := list event -> result A * list event.

Definition ret {A : Type} (a : A) : M A := fun t => (Returned a, t).

Definition bind {A B : Type} (m : M A) (k : A -> M B) : M B :=
  fun t =>
    match m t with
    | (Returned a, t') => k a t'
    | (Raised e, t') => (Raised e, t')
    | (Unfinished, t') => (Unfinished, t')
    end.

Definition raise {A : Type} (e : exn) : M A := fun t => (Raised e, t).

Definition unfinished {A : Type} : M A := fun t => (Unfinished, t).

Definition lift {A : Type} (o : outcome A) : M A :=
  fun t => match o with Ok a => (Returned a, t) | Raise e => (Raised e, t) end.

(** An external call: recorded, then it returns or raises. *)
Definition call {A : Type} (ev : event) (o : outcome A) : M A :=
  fun t => lift o (t ++ [ev]).

(** [try: m  except <classes accepted by catches> as err: handler err] *)
Definition try_except {A : Type} (m : M A) (catches : exn -> bool)
           (handler : exn -> M A) : M A :=
  fun t =>
    match m t with
    | (Raised e, t') => if catches e then handler e t' else (Raised e, t')
    | r => r
    end.

Definition run {A : Type} (m : M A) : result A * list event := m [].

End Eff.
Import Eff.

Declare Scope eff_scope.
Delimit Scope eff_scope with eff.
Notation "x <- m ;; k" := (bind m (fun x => k))
  (at level 61, m at next level, right associativity) : eff_scope.
Notation "m ;;; k" := (bind m (fun _ => k))
  (at level 61, right associativity) : eff_scope.

(** Number of [build.is_running()] calls made so far. *)
Definition polls_so_far (t : list event) : nat :=
  List.length (filter (fun ev => match ev with EIsRunning => true | _ => false end) t).

(** [build.is_running()] *)
Definition is_running (J : jenkins_server) : M bool :=
  fun t => call EIsRunning (srv_is_running J (polls_so_far t)) t.

(** The [details] dictionary that backoff hands to its handlers; only the
    entries [args] and [tries] are kept. *)
Record details : Type := mk_details {
  details_args : list Build;
  details_tries : Z
}.

(** [_poll_giveup] *)
Definition _poll_giveup (data : details) : outcome unit :=
  match details_args data with
  | build :: _ =>
      let msg := ("Timed out waiting for build " ++ build_name build
                  ++ " to finish.")%string in
      Raise (BackendError msg)
  | [] => Raise (OtherException "IndexError" "tuple index out of range")
  end.

(** The retry loop of [backoff.on_predicate(wait_gen, max_tries=max_tries,
    on_giveup=on_giveup)] around [target], called with [args]: the target is
    called, and while [predicate] (by default [operator.not_]) holds of its
    value the loop takes the next value of the wait generator and sleeps (up
    to that long), unless the call was number [max_tries], where the give-up
    handler runs and the loop ends.  [tries] counts the calls made, [n] is the
    state of the wait generator. *)
Fixpoint retry (fuel : nat) (target : M bool) (on_giveup : details -> outcome unit)
         (args : list Build) (wait_gen : expo_closure) (max_tries : Z)
         (tries : Z) (n : Z) : M bool :=
  match fuel with
  | O => unfinished
  | S fuel' =>
      let tries := (tries + 1)%Z in
      (ret_ <- target ;;
       if negb ret_
       then
         if (tries =? max_tries)%Z
         then lift (on_giveup (mk_details args tries)) ;;; ret ret_
         else
           let (value, n') := expo_next wait_gen n in
           call (ESleep value) (Ok tt) ;;;
           retry fuel' target on_giveup args wait_gen max_tries tries n'
       else ret ret_)%eff
  end.

(** The body of [poll_build_for_result(build)], before decoration. *)
Definition poll_target (J : jenkins_server) : M bool :=
  (running <- is_running J ;; ret (negb running))%eff.

(** The decorated [poll_build_for_result(build)]. *)
Definition poll_build_for_result (fuel : nat) (J : jenkins_server)
           (wait_gen : expo_closure) (max_tries : Z) (build : Build) : M bool :=
  retry fuel (poll_target J) _poll_giveup [build] wait_gen max_tries 0
        (expo wait_gen).

(** [d[k] = v] on a dictionary kept as an association list. *)
Fixpoint dict_set (d : list (string * string)) (k v : string)
  : list (string * string) :=
  match d with
  | [] => [(k, v)]
  | (k', v') :: d' =>
      if String.eqb k' k then (k, v) :: d' else (k', v') :: dict_set d' k v
  end.

(** The loop over [job_params] that fills [request_params]; iterating over
    [None] raises [TypeError]. *)
Definition build_request_params (job_params : option (list (string * string)))
  : outcome (list (string * string)) :=
  match job_params with
  | None => Raise (TypeError "'NoneType' object is not iterable")
  | Some ps => Ok (fold_left (fun d p => dict_set d (fst p) (snd p)) ps [])
  end.

(** The classes named by [except (JenkinsAPIException, HTTPError)]. *)
Definition connect_catches (e : exn) : bool :=
  match e with
  | JenkinsAPIException _ | HTTPError _ => true
  | _ => false
  end.

Definition job_not_found_msg (job_name : string) : string :=
  (("Job not found: " ++ job_name ++ ".")
   ++ " Verify that you have permissions for the job and double check the spelling of its name.")%string.

(** [trigger_build]; [fuel] bounds the iterations of the polling loop. *)
Definition trigger_build (fuel : nat) (J : jenkins_server)
           (base_url user_name user_token job_name job_token : string)
           (job_cause : option string)
           (job_params : option (list (string * string)))
           (timeout : Q) : M string :=
  (sched <- lift (_backoff_timeout timeout 2 1) ;;
   let (wait_gen, max_tries) := sched in
   request_params <- lift (build_request_params job_params) ;;
   try_except (call (EConnect base_url user_name user_token) (srv_connect J))
              connect_catches
              (fun err => raise (BackendError (exn_str err))) ;;;
   found <- call (EHasJob job_name) (srv_has_job J job_name) ;;
   if negb found
   then raise (BackendError (job_not_found_msg job_name))
   else
     call (EGetJob job_name) (srv_getitem J job_name) ;;;
     queue_item <- call (EInvoke job_token request_params job_cause) (srv_invoke J) ;;
     url <- call EBaseServerUrl (srv_base_server_url J) ;;
     call (ELogInfo ("Added item to jenkins. Server: " ++ url ++ " Job: "
                     ++ queue_item ++ " ")%string) (Ok tt) ;;;
     call EBlockUntilBuilding (srv_block_until_building J) ;;;
     build <- call EGetBuild (srv_get_build J) ;;
     call (ELogInfo ("Created build " ++ build_repr build)%string) (Ok tt) ;;;
     call (ELogInfo ("See " ++ build_baseurl build)%string) (Ok tt) ;;;
     poll_build_for_result fuel J wait_gen max_tries build ;;;
     status <- call EGetStatus (srv_get_status J) ;;
     call (ELogInfo ("Build status: " ++ status)%string) (Ok tt) ;;;
     ret status)%eff.

(** ** Loading the modules *)

Module Loader.

(** The names bound by executing [tubular/exception.py]. *)
Definition tubular_exception : list string :=
  ["TimeoutException"; "ImageNotFoundException"; "MissingTagException"]%string.

(** [from <module> import name] against the names the module binds. *)
Definition import_from (defs : list string) (name : string) : outcome unit :=
  if existsb (String.eqb name) defs
  then Ok tt
  else Raise (ImportError ("cannot import name " ++ name)%string).

(** Executing [tubular/jenkins.py]: the imports of line 4 to 10 come from
    the standard library and from installed packages and are taken to
    succeed; line 12 imports from [tubular.exception]; then [LOG] and the
    three functions are bound.  The result is the namespace of the
    module. *)
Definition load_tubular_jenkins : outcome (list string) :=
  (_ <- import_from tubular_exception "BackendError" ;;
   Ok ["logging"; "math"; "backoff"; "Jenkins"; "JenkinsAPIException";
       "HTTPError"; "BackendError"; "LOG"; "_poll_giveup";
       "_backoff_timeout"; "trigger_build"]%string)%outcome.

(** What a client gets that asks [tubular.jenkins] for [name]. *)
Definition from_tubular_jenkins_import (name : string) : outcome unit :=
  (ns <- load_tubular_jenkins ;; import_from ns name)%outcome.

End Loader.

(** ** Vocabulary of the statements *)

(** [sub] occurs in [s]. *)
Definition contains (s sub : string) : Prop :=
  exists pre post : string, s = (pre ++ sub ++ post)%string.

(** The wait values the polling loop slept on, in order. *)
Fixpoint sleeps (t : list event) : list Q :=
  match t with
  | [] => []
  | ESleep v :: t' => v :: sleeps t'
  | _ :: t' => sleeps t'
  end.

(** The external calls of a polling loop that polls [k + 1] times and waits
    in between, with the wait generator in state [n]. *)
Fixpoint poll_trace (wait_gen : expo_closure) (k : nat) (n : Z) : list event :=
  match k with
  | O => [EIsRunning]
  | S k' =>
      EIsRunning :: ESleep (fst (expo_next wait_gen n))
        :: poll_trace wait_gen k' (snd (expo_next wait_gen n))
  end.

(** [e] is an exception that one of the collaborator's calls raises. *)
Definition raised_by_server (J : jenkins_server) (job_name : string) (e : exn)
  : Prop :=
  srv_connect J = Raise e
  \/ srv_has_job J job_name = Raise e
  \/ srv_getitem J job_name = Raise e
  \/ srv_invoke J = Raise e
  \/ srv_base_server_url J = Raise e
  \/ srv_block_until_building J = Raise e
  \/ srv_get_build J = Raise e
  \/ (exists k : nat, srv_is_running J k = Raise e)
  \/ srv_get_status J = Raise e.

(** Sample collaborators. *)
Module Samples.

Local Open Scope string_scope.

Definition build7 : Build :=
  mk_build "test-project #7" "https://jenkins.example/job/test-project/7/"
           "test-project #7".

(** A server on which everything works; the build answers [running k] to
    poll number [k], and [has] tells whether the job exists. *)
Definition server (has : bool) (running : nat -> bool) : jenkins_server :=
  mk_server (Ok tt) (fun _ => Ok has) (fun _ => Ok tt) (Ok "queue item 3")
            (Ok "https://jenkins.example") (Ok tt) (Ok build7)
            (fun k => Ok (running k)) (Ok "SUCCESS").

(** Login is refused. *)
Definition server_login_refused : jenkins_server :=
  mk_server (Raise (HTTPError "401 Client Error: Unauthorized"))
            (fun _ => Ok true) (fun _ => Ok tt) (Ok "queue item 3")
            (Ok "https://jenkins.example") (Ok tt) (Ok build7)
            (fun _ => Ok false) (Ok "SUCCESS").

(** The job exists, but invoking it fails inside the client library. *)
Definition server_invoke_fails : jenkins_server :=
  mk_server (Ok tt) (fun _ => Ok true) (fun _ => Ok tt)
            (Raise (JenkinsAPIException "Operation failed"))
            (Ok "https://jenkins.example") (Ok tt) (Ok build7)
            (fun _ => Ok false) (Ok "SUCCESS").

End Samples.

(** ** Vocabulary of the further properties *)

(** The value the generator gives at position [i] (from 0) of a fresh run, in
    closed form. *)
Definition expo_value (c : expo_closure) (i : nat) : Q :=
  if (Z.of_nat i <? expo_tries c)%Z
  then expo_factor c * expo_base c ^ Z.of_nat i
  else expo_remainder c.

(** [d.get(k)] on a dictionary kept as an association list. *)
Fixpoint dict_get (d : list (string * string)) (k : string) : option string :=
  match d with
  | [] => None
  | (k', v) :: d' => if String.eqb k' k then Some v else dict_get d' k
  end.

(** The value of the last pair of [ps] whose name is [k]. *)
Fixpoint last_value (ps : list (string * string)) (k : string) : option string :=
  match ps with
  | [] => None
  | (k', v) :: ps' =>
      match last_value ps' k with
      | Some v' => Some v'
      | None => if String.eqb k' k then Some v else None
      end
  end.

(** Number of [job.invoke] calls in a trace. *)
Definition invokes (t : list event) : nat :=
  List.length (filter (fun ev => match ev with EInvoke _ _ _ => true | _ => false end) t).

(** The events the polling loop produces. *)
Definition is_poll_event (ev : event) : bool :=
  match ev with
  | EIsRunning | ESleep _ => true
  | _ => false
  end.

(** ** Facts about the arithmetic *)

Section ArithFacts.

Lemma Qeq_bool_false_iff (a b : Q) : Qeq_bool a b = false <-> ~ a == b.
Proof.
  split.
  - intros H E. apply Qeq_bool_iff in E. congruence.
  - intros H. destruct (Qeq_bool a b) eqn:E; [|reflexivity].
    apply Qeq_bool_iff in E. contradiction.
Qed.

Lemma Qle_bool_false_iff (a b : Q) : Qle_bool a b = false <-> b < a.
Proof.
  split.
  - intros H. apply Qnot_le_lt. intros L.
    apply Qle_bool_iff in L. congruence.
  - intros H. destruct (Qle_bool a b) eqn:E; [|reflexivity].
    apply Qle_bool_iff in E. apply Qle_not_lt in E. contradiction.
Qed.

Lemma py_div_ok (a b : Q) : ~ b == 0 -> py_div a b = Ok (a / b).
Proof.
  intros H. unfold py_div.
  apply Qeq_bool_false_iff in H. now rewrite H.
Qed.

Lemma floor_log_loop_ge (fuel : nat) :
  forall b x pw k, (k <= floor_log_loop fuel b x pw k)%Z.
Proof.
  induction fuel as [|fuel IH]; intros b x pw k; simpl.
  - lia.
  - destruct (Qle_bool (pw * b) x).
    + specialize (IH b x (pw * b) (k + 1)%Z). lia.
    + lia.
Qed.

Lemma floor_log_nonneg (b x : Q) : (0 <= floor_log b x)%Z.
Proof. apply floor_log_loop_ge. Qed.

Lemma above_one_id (q : Q) : 1 <= q -> above_one q = q.
Proof.
  intros H. unfold above_one.
  apply Qle_bool_iff in H. now rewrite H.
Qed.

Lemma int_log_above (x base : Q) :
  1 <= x -> 1 <= base -> int_log x base = floor_log base x.
Proof.
  intros Hx Hb. unfold int_log.
  rewrite (above_one_id x Hx), (above_one_id base Hb).
  apply Qle_bool_iff in Hx, Hb. now rewrite Hx, Hb.
Qed.

Lemma math_log_int_ok (x base : Q) :
  0 < x -> 0 < base -> ~ base == 1 ->
  math_log_int x base = Ok (int_log x base).
Proof.
  intros Hx Hb Hb1. unfold math_log_int.
  apply Qle_bool_false_iff in Hx, Hb.
  apply Qeq_bool_false_iff in Hb1.
  now rewrite Hx, Hb, Hb1.
Qed.

(** The argument of the logarithm is at least 1 on the documented domain. *)
Lemma log_argument_ge_1 (timeout base factor : Q) :
  0 <= timeout -> 1 < base -> 0 < factor ->
  1 <= timeout * (base - 1) / factor + 1.
Proof.
  intros Ht Hb Hf.
  assert (0 <= timeout * (base - 1) / factor); [|lra].
  apply Qle_shift_div_l; [assumption|].
  assert (0 <= timeout * (base - 1)); [|lra].
  apply Qmult_le_0_compat; lra.
Qed.

End ArithFacts.

(** ** Facts about the wait generator *)

Section Generator.

Variable c : expo_closure.
Hypothesis base_nonzero : ~ expo_base c == 0.
Hypothesis base_not_one : ~ expo_base c == 1.

Lemma expo_next_below (n : Z) :
  (n < expo_tries c)%Z ->
  expo_next c n = (expo_factor c * expo_base c ^ n, (n + 1)%Z).
Proof.
  intros H. unfold expo_next.
  destruct (Z.geb_spec n (expo_tries c)); [lia | reflexivity].
Qed.

Lemma expo_next_capped (n : Z) :
  (expo_tries c <= n)%Z -> expo_next c n = (expo_remainder c, n).
Proof.
  intros H. unfold expo_next.
  destruct (Z.geb_spec n (expo_tries c)); [reflexivity | lia].
Qed.

Lemma Qpower_succ (n : Z) :
  expo_base c ^ (n + 1) == expo_base c ^ n * expo_base c.
Proof.
  rewrite Qpower_plus by assumption.
  reflexivity.
Qed.

(** While the generator stays below [tries] it yields the exponential
    progression, whose sum is geometric. *)
Lemma expo_take_progression (k : nat) :
  forall n : Z,
    (n + Z.of_nat k <= expo_tries c)%Z ->
    Qsum (expo_take c k n)
    == expo_factor c * (expo_base c ^ (n + Z.of_nat k) - expo_base c ^ n)
       / (expo_base c - 1).
Proof.
  induction k as [|k IH]; intros n Hn.
  - simpl. rewrite Z.add_0_r. field. lra.
  - cbn [expo_take]. rewrite expo_next_below by lia.
    cbn [Qsum fold_right]. fold (Qsum (expo_take c k (n + 1))).
    rewrite IH by lia.
    replace (n + 1 + Z.of_nat k)%Z with (n + Z.of_nat (S k))%Z by lia.
    rewrite Qpower_succ. field. lra.
Qed.

(** Once the progression is used up the next value is the remainder. *)
Lemma expo_take_then_remainder (k : nat) :
  forall n : Z,
    (n + Z.of_nat k = expo_tries c)%Z ->
    Qsum (expo_take c (S k) n)
    == expo_factor c * (expo_base c ^ (expo_tries c) - expo_base c ^ n)
       / (expo_base c - 1)
       + expo_remainder c.
Proof.
  induction k as [|k IH]; intros n Hn.
  - cbn [expo_take]. rewrite expo_next_capped by lia.
    cbn [Qsum fold_right].
    replace (expo_tries c) with n by lia. field. lra.
  - remember (S k) as k' eqn:Ek.
    cbn [expo_take]. rewrite expo_next_below by lia.
    cbn [Qsum fold_right]. fold (Qsum (expo_take c k' (n + 1))).
    subst k'. rewrite IH by lia.
    rewrite Qpower_succ. field. lra.
Qed.

End Generator.

(** ** The sum of the schedule *)

Section Schedule.

Variables timeout base factor : Q.

(** Whatever value [tries >= 0] the logarithm delivered, the lines after it
    build a schedule whose first [max_tries - 1] waits add up to
    [timeout]. *)
Lemma backoff_from_tries_sum (tries : Z) :
  (0 <= tries)%Z -> ~ base == 0 -> ~ base == 1 ->
  exists wait_gen max_tries,
    backoff_from_tries tries timeout base factor = Ok (wait_gen, max_tries)
    /\ expo_tries wait_gen = tries
    /\ (tries + 1 <= max_tries <= tries + 2)%Z
    /\ Qsum (first_waits wait_gen (Z.to_nat (max_tries - 1))) == timeout.
Proof.
  intros Ht Hb0 Hb1. unfold backoff_from_tries.
  rewrite py_div_ok by lra. cbn [obind].
  set (s := factor * (base ^ tries - 1) / (base - 1)).
  set (g := mk_expo factor base tries (timeout - s)).
  destruct (Qeq_bool (timeout - s) 0) eqn:E.
  - exists g, (tries + 1)%Z. repeat split; try lia; try reflexivity.
    apply Qeq_bool_iff in E.
    unfold first_waits, expo.
    rewrite expo_take_progression; cbn [g expo_base expo_tries expo_factor];
      try assumption; [|lia].
    replace (0 + Z.of_nat (Z.to_nat (tries + 1 - 1)))%Z with tries by lia.
    change (base ^ 0) with 1.
    fold s. lra.
  - exists g, (tries + 2)%Z. repeat split; try lia; try reflexivity.
    unfold first_waits, expo.
    replace (Z.to_nat (tries + 2 - 1)) with (S (Z.to_nat tries)) by lia.
    rewrite expo_take_then_remainder;
      cbn [g expo_base expo_tries expo_factor expo_remainder];
      try assumption; [|lia].
    change (base ^ 0) with 1.
    fold s. lra.
Qed.

Hypothesis timeout_nonneg : 0 <= timeout.
Hypothesis base_gt_1 : 1 < base.
Hypothesis factor_pos : 0 < factor.

(** On the documented domain the two divisions and the logarithm succeed,
    and [tries] is the integer logarithm. *)
Lemma _backoff_timeout_unfold :
  _backoff_timeout timeout base factor
  = backoff_from_tries
      (floor_log base (timeout * (base - 1) / factor + 1))
      timeout base factor.
Proof.
  unfold _backoff_timeout.
  rewrite py_div_ok by lra. cbn [obind].
  pose proof (log_argument_ge_1 timeout base factor
                timeout_nonneg base_gt_1 factor_pos) as Hx.
  rewrite math_log_int_ok by lra. cbn [obind].
  rewrite int_log_above by lra.
  reflexivity.
Qed.

End Schedule.

(** On the documented domain the schedule is returned, allows at least one
    attempt, and its waits add up to [timeout]. *)
Lemma backoff_sum_on_domain (timeout base factor : Q) :
  0 <= timeout -> 1 < base -> 0 < factor ->
  exists wait_gen max_tries,
    _backoff_timeout timeout base factor = Ok (wait_gen, max_tries)
    /\ (1 <= max_tries)%Z
    /\ Qsum (first_waits wait_gen (Z.to_nat (max_tries - 1))) == timeout.
Proof.
  intros Ht Hb Hf.
  rewrite _backoff_timeout_unfold by assumption.
  destruct (backoff_from_tries_sum timeout base factor
              (floor_log base (timeout * (base - 1) / factor + 1)))
    as (g & m & Hok & Htries & Hm & Hsum).
  - apply floor_log_nonneg.
  - lra.
  - lra.
  - exists g, m. split; [exact Hok|]. split; [|exact Hsum].
    pose proof (floor_log_nonneg base (timeout * (base - 1) / factor + 1)).
    lia.
Qed.

(** C1.  For every [timeout >= 0], [base > 1] and [factor > 0],
    [_backoff_timeout timeout base factor] returns a pair
    [(wait_gen, max_tries)], and the first [max_tries - 1] values yielded by a
    fresh [wait_gen()] add up to [timeout]. *)
Theorem backoff_waits_sum_to_timeout (timeout base factor : Q) :
  0 <= timeout -> 1 < base -> 0 < factor ->
  (exists sched, _backoff_timeout timeout base factor = Ok sched)
  /\ forall wait_gen max_tries,
       _backoff_timeout timeout base factor = Ok (wait_gen, max_tries) ->
       Qsum (first_waits wait_gen (Z.to_nat (max_tries - 1))) == timeout.
Proof.
  intros Ht Hb Hf.
  destruct (backoff_sum_on_domain timeout base factor Ht Hb Hf)
    as (g & m & Hok & _ & Hsum).
  split; [exists (g, m); exact Hok|].
  intros wait_gen max_tries H. rewrite Hok in H.
  injection H as <- <-. exact Hsum.
Qed.

Lemma backoff_waits_sum_to_timeout_witness :
  (exists sched, _backoff_timeout 10 2 1 = Ok sched)
  /\ forall wait_gen max_tries,
       _backoff_timeout 10 2 1 = Ok (wait_gen, max_tries) ->
       Qsum (first_waits wait_gen (Z.to_nat (max_tries - 1))) == 10.
Proof.
  apply (backoff_waits_sum_to_timeout 10 2 1);
    [unfold Qle; simpl; lia | reflexivity | reflexivity].
Defined.

(** ** The integer logarithm *)

Section FloorLog.

Variables b x : Q.
Hypothesis b_gt_1 : 1 < b.

Lemma floor_log_loop_spec (fuel : nat) :
  forall (pw : Q) (k : Z),
    pw == b ^ k -> pw <= x ->
    let r := floor_log_loop fuel b x pw k in
    b ^ r <= x
    /\ (k <= r <= k + Z.of_nat fuel)%Z
    /\ (x < b ^ (r + 1) \/ r = (k + Z.of_nat fuel)%Z).
Proof.
  induction fuel as [|fuel IH]; intros pw k Hpw Hle; cbn zeta.
  - cbn [floor_log_loop]. rewrite <- Hpw.
    split; [assumption|]. split; [lia|]. right. lia.
  - cbn [floor_log_loop].
    assert (Hnext : pw * b == b ^ (k + 1)).
    { rewrite Qpower_plus by lra. rewrite Hpw. reflexivity. }
    destruct (Qle_bool (pw * b) x) eqn:E.
    + apply Qle_bool_iff in E.
      destruct (IH (pw * b) (k + 1)%Z Hnext E) as (H1 & H2 & H3).
      split; [exact H1|]. split; [lia|].
      destruct H3 as [H3|H3]; [left; exact H3 | right; lia].
    + apply Qle_bool_false_iff in E.
      rewrite <- Hpw. split; [assumption|]. split; [lia|].
      left. rewrite <- Hnext. exact E.
Qed.

(** Bernoulli's inequality. *)
Lemma bernoulli (n : nat) : 1 + inject_Z (Z.of_nat n) * (b - 1) <= b ^ Z.of_nat n.
Proof.
  induction n as [|n IH].
  - change (Z.of_nat 0) with 0%Z. change (inject_Z 0) with 0.
    change (b ^ 0) with 1. lra.
  - replace (Z.of_nat (S n)) with (Z.of_nat n + 1)%Z by lia.
    rewrite Qpower_plus by lra.
    rewrite inject_Z_plus.
    change (b ^ 1) with b.
    set (P := b ^ Z.of_nat n) in *.
    set (m := inject_Z (Z.of_nat n)) in *.
    assert (Hm : 0 <= m).
    { unfold m. change 0 with (inject_Z 0). rewrite <- Zle_Qle. lia. }
    assert (Hmh : 0 <= m * (b - 1)) by (apply Qmult_le_0_compat; lra).
    assert (HP : 0 <= (P - 1) * (b - 1)) by (apply Qmult_le_0_compat; lra).
    change (inject_Z 1) with 1.
    lra.
Qed.

Hypothesis x_ge_1 : 1 <= x.

(** [floor_log b x] is the integer part of the logarithm. *)
Lemma floor_log_spec :
  b ^ floor_log b x <= x /\ x < b ^ (floor_log b x + 1).
Proof.
  unfold floor_log.
  set (F := Qfloor ((x - 1) / (b - 1))).
  assert (HF : (0 <= F)%Z).
  { unfold F. change 0%Z with (Qfloor 0). apply Qfloor_resp_le.
    apply Qle_shift_div_l; lra. }
  destruct (floor_log_loop_spec (Z.to_nat F) 1 0) as (H1 & H2 & H3).
  - reflexivity.
  - assumption.
  - cbn zeta in *. split; [exact H1|].
    destruct H3 as [H3|H3]; [exact H3|].
    rewrite H3.
    replace (0 + Z.of_nat (Z.to_nat F) + 1)%Z
      with (Z.of_nat (S (Z.to_nat F))) by lia.
    eapply Qlt_le_trans; [|apply bernoulli].
    replace (Z.of_nat (S (Z.to_nat F))) with (F + 1)%Z by lia.
    pose proof (Qlt_floor ((x - 1) / (b - 1))) as Hfl. fold F in Hfl.
    assert (Hmul : (x - 1) / (b - 1) * (b - 1) < inject_Z (F + 1) * (b - 1))
      by (apply Qmult_lt_r; [lra | exact Hfl]).
    assert (Heq : (x - 1) / (b - 1) * (b - 1) == x - 1) by (field; lra).
    rewrite Heq in Hmul. lra.
Qed.

(** It is the largest exponent whose power does not exceed [x]. *)
Lemma floor_log_largest (K : Z) : b ^ K <= x <-> (K <= floor_log b x)%Z.
Proof.
  destruct floor_log_spec as [Hlo Hhi].
  split.
  - intros HK.
    assert (b ^ K < b ^ (floor_log b x + 1)) as Hlt
        by (eapply Qle_lt_trans; eassumption).
    apply Qpower_lt_compat_l_inv in Hlt; [lia | assumption].
  - intros HK. eapply Qle_trans; [|exact Hlo].
    apply Qpower_le_compat_l; [assumption | lra].
Qed.

End FloorLog.

Section LargestExponent.

Variables timeout base factor : Q.
Hypothesis timeout_nonneg : 0 <= timeout.
Hypothesis base_gt_1 : 1 < base.
Hypothesis factor_pos : 0 < factor.

(** The exponential sum stays within [timeout] exactly when the power stays
    within the argument of the logarithm. *)
Lemma exp_sum_le_iff (K : Z) :
  exp_sum base factor K <= timeout
  <-> base ^ K <= timeout * (base - 1) / factor + 1.
Proof.
  unfold exp_sum.
  set (P := base ^ K).
  assert (E1 : factor * (P - 1) / (base - 1)
               == (factor / (base - 1)) * (P - 1)) by (field; lra).
  assert (E2 : timeout
               == (factor / (base - 1))
                  * (timeout * (base - 1) / factor + 1 - 1)) by (field; lra).
  assert (Hpos : 0 < factor / (base - 1)) by (apply Qlt_shift_div_l; lra).
  rewrite E1. rewrite E2 at 1.
  rewrite Qmult_le_l by exact Hpos.
  split; intros H; lra.
Qed.

(** In exact arithmetic the [tries] of the schedule is the largest [K]
    such that [factor*(base^K - 1)/(base - 1)] does not exceed
    [timeout]. *)
Lemma tries_is_largest_exponent :
  exists sched,
    _backoff_timeout timeout base factor = Ok sched
    /\ forall K : Z,
         exp_sum base factor K <= timeout <-> (K <= tries_of sched)%Z.
Proof.
  rewrite _backoff_timeout_unfold by assumption.
  set (x := timeout * (base - 1) / factor + 1).
  destruct (backoff_from_tries_sum timeout base factor (floor_log base x))
    as (g & m & Hok & Htries & _).
  - apply floor_log_nonneg.
  - lra.
  - lra.
  - exists (g, m). split; [exact Hok|].
    intros K. unfold tries_of. cbn [fst]. rewrite Htries.
    rewrite exp_sum_le_iff.
    apply floor_log_largest; [assumption|].
    apply log_argument_ge_1; assumption.
Qed.

End LargestExponent.

(** ** The scenarios of the schedule *)

(** C5, as amended.  For [base = 2], [factor = 1] and [timeout = 60*30]
    the schedule has [tries = 10] and [max_tries = 12]: the waits are the
    powers of two from 1 to 512, the rows of the docstring's table up to
    attempt 11, followed by the remainder 777. *)
Theorem backoff_1800_schedule :
  _backoff_timeout (60 * 30) 2 1 = Ok (mk_expo 1 2 10 777, 12%Z)
  /\ first_waits (mk_expo 1 2 10 777) 11
     = [1; 2; 4; 8; 16; 32; 64; 128; 256; 512; 777]
  /\ Qsum (first_waits (mk_expo 1 2 10 777) 10) == 1023.
Proof.
  repeat split; vm_compute; reflexivity.
Qed.

(** C5, as stated, fails: for [base = 2], [factor = 1], [timeout = 1800] the
    waits used by the polling loop never reach 2048, and the progression is
    left after 10 values, not 12 or 13. *)
Lemma backoff_1800_never_reaches_2048 :
  ~ (exists wait_gen max_tries,
        _backoff_timeout 1800 2 1 = Ok (wait_gen, max_tries)
        /\ Exists (fun v => v == 2048)
                  (first_waits wait_gen (Z.to_nat (max_tries - 1)))).
Proof.
  intros (g & m & Hok & Hex).
  vm_compute in Hok. injection Hok as <- <-.
  vm_compute in Hex.
  repeat match goal with
         | H : Exists _ (_ :: _) |- _ =>
             apply Exists_cons in H; destruct H as [H|H]; [discriminate H|]
         end.
  inversion Hex.
Qed.

(** C6.  For [base = 2], [factor = 1], [timeout = 7] the schedule has
    [tries = 3], remainder 0 and [max_tries = tries + 1 = 4]; the first
    [max_tries - 1 = 3] values are exactly 1, 2, 4, and none of them comes
    from [yield remainder]. *)
Theorem backoff_exact_sum_7 :
  exists wait_gen,
    _backoff_timeout 7 2 1 = Ok (wait_gen, 4%Z)
    /\ expo_tries wait_gen = 3%Z
    /\ expo_remainder wait_gen == 0
    /\ first_waits wait_gen 3 = [1; 2; 4]
    /\ forallb (fun n => negb (at_remainder wait_gen n))
               (expo_states wait_gen 3 (expo wait_gen)) = true.
Proof.
  eexists. split; [vm_compute; reflexivity|].
  repeat split; vm_compute; reflexivity.
Qed.

(** C7.  For [base = 2], [factor = 1], [timeout = 10] the schedule has
    [tries = 3], remainder 3 and [max_tries = tries + 2 = 5]; the
    progression 1, 2, 4 sums to 7, and the fourth and last value used is the
    remainder 3, produced by [yield remainder]. *)
Theorem backoff_remainder_10 :
  exists wait_gen,
    _backoff_timeout 10 2 1 = Ok (wait_gen, 5%Z)
    /\ expo_tries wait_gen = 3%Z
    /\ expo_remainder wait_gen = 3
    /\ first_waits wait_gen 4 = [1; 2; 4; 3]
    /\ Qsum (first_waits wait_gen 3) == 7
    /\ expo_states wait_gen 4 (expo wait_gen) = [0; 1; 2; 3]%Z
    /\ at_remainder wait_gen 3 = true.
Proof.
  eexists. split; [vm_compute; reflexivity|].
  repeat split; vm_compute; reflexivity.
Qed.

(** ** The polling loop *)

Section Polling.

Variable J : jenkins_server.
Variable wait_gen : expo_closure.
Variable max_tries : Z.
Variable build : Build.

Lemma target_run (t : list event) :
  poll_target J t
  = (match srv_is_running J (polls_so_far t) with
     | Ok running => Returned (negb running)
     | Raise e => Raised e
     end, t ++ [EIsRunning]).
Proof.
  unfold poll_target, bind, is_running, call, lift, ret.
  destruct (srv_is_running J (polls_so_far t)); reflexivity.
Qed.

(** One iteration of the loop. *)
Lemma retry_step (fuel : nat) (tries n : Z) (t : list event) :
  retry (S fuel) (poll_target J) _poll_giveup [build] wait_gen max_tries tries n t
  = match srv_is_running J (polls_so_far t) with
    | Raise e => (Raised e, t ++ [EIsRunning])
    | Ok false => (Returned true, t ++ [EIsRunning])
    | Ok true =>
        if (tries + 1 =? max_tries)%Z
        then (Raised (BackendError ("Timed out waiting for build "
                                    ++ build_name build ++ " to finish.")),
              t ++ [EIsRunning])
        else retry fuel (poll_target J) _poll_giveup [build] wait_gen max_tries
                   (tries + 1) (snd (expo_next wait_gen n))
                   ((t ++ [EIsRunning])
                      ++ [ESleep (fst (expo_next wait_gen n))])
    end.
Proof.
  cbn [retry]. unfold bind at 1. rewrite target_run.
  destruct (srv_is_running J (polls_so_far t)) as [[|]|e]; cbn [negb];
    try reflexivity.
  destruct (tries + 1 =? max_tries)%Z; [reflexivity|].
  destruct (expo_next wait_gen n) as [v n']. reflexivity.
Qed.

(** With a poll budget of one the loop polls once and never waits. *)
Lemma retry_single_attempt (fuel : nat) (n : Z) (t : list event) :
  max_tries = 1%Z ->
  retry (S fuel) (poll_target J) _poll_giveup [build] wait_gen max_tries 0 n t
  = (match srv_is_running J (polls_so_far t) with
     | Raise e => Raised e
     | Ok false => Returned true
     | Ok true => Raised (BackendError ("Timed out waiting for build "
                                        ++ build_name build ++ " to finish."))
     end, t ++ [EIsRunning]).
Proof.
  intros Hm. rewrite retry_step, Hm.
  destruct (srv_is_running J (polls_so_far t)) as [[|]|e]; reflexivity.
Qed.

(** A build that keeps running uses up the budget: the loop polls
    [max_tries - tries] more times, waits in between on the values of the
    generator, and gives up with [BackendError]. *)
Lemma retry_exhausts (fuel : nat) :
  forall (tries n : Z) (t : list event),
    (forall k, srv_is_running J k = Ok true) ->
    (tries < max_tries)%Z ->
    (Z.to_nat (max_tries - tries) <= fuel)%nat ->
    retry fuel (poll_target J) _poll_giveup [build] wait_gen max_tries tries n t
    = (Raised (BackendError ("Timed out waiting for build "
                             ++ build_name build ++ " to finish.")),
       t ++ poll_trace wait_gen (Z.to_nat (max_tries - tries - 1)) n).
Proof.
  induction fuel as [|fuel IH]; intros tries n t Hrun Hlt Hfuel.
  - lia.
  - rewrite retry_step, Hrun.
    destruct (Z.eqb_spec (tries + 1) max_tries) as [E|E].
    + replace (Z.to_nat (max_tries - tries - 1)) with O by lia.
      reflexivity.
    + rewrite IH by (try assumption; lia).
      replace (Z.to_nat (max_tries - tries - 1))
        with (S (Z.to_nat (max_tries - (tries + 1) - 1))) by lia.
      cbn [poll_trace]. rewrite <- !app_assoc. reflexivity.
Qed.

(** An exception that leaves the loop is the [BackendError] of the give-up
    handler or was raised by [is_running]. *)
Lemma retry_raises (fuel : nat) :
  forall (tries n : Z) (t t' : list event) (e : exn),
    retry fuel (poll_target J) _poll_giveup [build] wait_gen max_tries tries n t
    = (Raised e, t') ->
    is_BackendError e = true \/ exists k, srv_is_running J k = Raise e.
Proof.
  induction fuel as [|fuel IH]; intros tries n t t' e H.
  - discriminate H.
  - rewrite retry_step in H.
    destruct (srv_is_running J (polls_so_far t)) as [[|]|e0] eqn:E.
    + destruct (tries + 1 =? max_tries)%Z.
      * injection H as <- _. left. reflexivity.
      * eapply IH. exact H.
    + discriminate H.
    + injection H as <- _. right. eexists. exact E.
Qed.

Lemma sleeps_app (t1 t2 : list event) : sleeps (t1 ++ t2) = sleeps t1 ++ sleeps t2.
Proof.
  induction t1 as [|ev t1 IH]; [reflexivity|].
  destruct ev; cbn [sleeps app]; rewrite IH; reflexivity.
Qed.

Lemma polls_so_far_app (t1 t2 : list event) :
  polls_so_far (t1 ++ t2) = (polls_so_far t1 + polls_so_far t2)%nat.
Proof.
  unfold polls_so_far. rewrite filter_app, length_app. reflexivity.
Qed.

Lemma sleeps_poll_trace (k : nat) :
  forall n, sleeps (poll_trace wait_gen k n) = expo_take wait_gen k n.
Proof.
  induction k as [|k IH]; intros n; [reflexivity|].
  cbn [poll_trace sleeps expo_take].
  destruct (expo_next wait_gen n) as [v n']. cbn [fst snd].
  rewrite IH. reflexivity.
Qed.

Lemma polls_poll_trace (k : nat) :
  forall n, polls_so_far (poll_trace wait_gen k n) = S k.
Proof.
  induction k as [|k IH]; intros n; [reflexivity|].
  cbn [poll_trace]. 
  change (polls_so_far (EIsRunning :: ESleep (fst (expo_next wait_gen n))
                          :: poll_trace wait_gen k (snd (expo_next wait_gen n))))
    with (S (polls_so_far (poll_trace wait_gen k (snd (expo_next wait_gen n))))).
  rewrite IH. reflexivity.
Qed.

End Polling.

(** ** [trigger_build] *)

Arguments poll_build_for_result : simpl never.
Arguments _backoff_timeout : simpl never.

(** With the default [base = 2] and [factor = 1] the schedule is computed
    for every [timeout] above -1. *)
Lemma backoff_default_ok (timeout : Q) :
  - (1) < timeout ->
  exists sched, _backoff_timeout timeout 2 1 = Ok sched.
Proof.
  intros Ht. unfold _backoff_timeout.
  rewrite py_div_ok by lra. cbn [obind].
  rewrite math_log_int_ok; [|field_simplify; lra|lra|lra].
  cbn [obind]. unfold backoff_from_tries.
  rewrite py_div_ok by lra. cbn [obind].
  destruct (Qeq_bool _ 0); eexists; reflexivity.
Qed.

(** At [timeout <= -1] the logarithm is undefined and [_backoff_timeout]
    raises. *)
Lemma backoff_default_domain_error (timeout : Q) :
  timeout <= - (1) ->
  _backoff_timeout timeout 2 1 = Raise (ValueError "math domain error").
Proof.
  intros Ht. unfold _backoff_timeout.
  rewrite py_div_ok by lra. cbn [obind].
  unfold math_log_int.
  assert (H : Qle_bool (timeout * (2 - 1) / 1 + 1) 0 = true).
  { apply Qle_bool_iff. field_simplify. lra. }
  rewrite H. reflexivity.
Qed.

(** On [timeout >= 0] the default schedule allows at least one poll, and
    its waits add up to [timeout]. *)
Lemma default_schedule_allows_a_poll (timeout : Q) :
  0 <= timeout ->
  exists wait_gen max_tries,
    _backoff_timeout timeout 2 1 = Ok (wait_gen, max_tries)
    /\ (1 <= max_tries)%Z
    /\ Qsum (first_waits wait_gen (Z.to_nat (max_tries - 1))) == timeout.
Proof.
  intros Ht.
  apply backoff_sum_on_domain; [assumption | reflexivity | reflexivity].
Qed.

Ltac unfold_trigger :=
  unfold run, trigger_build, bind, lift, try_except, call, raise, ret.

Section TriggerBuild.

Variable fuel : nat.
Variable J : jenkins_server.
Variables base_url user_name user_token job_name job_token : string.
Variable job_cause : option string.
Variable timeout : Q.

(** Without [job_params] nothing is ever sent to the server, and the
    exception is not a [BackendError]. *)
Lemma trigger_build_no_params_offline :
  exists e,
    run (trigger_build fuel J base_url user_name user_token job_name
                       job_token job_cause None timeout)
    = (Raised e, [])
    /\ is_BackendError e = false.
Proof.
  unfold_trigger.
  destruct (Qlt_le_dec (- (1)) timeout) as [Ht|Ht].
  - destruct (backoff_default_ok timeout Ht) as ([g m] & ->).
    cbn. eexists. split; reflexivity.
  - rewrite (backoff_default_domain_error timeout Ht).
    eexists. split; reflexivity.
Qed.

End TriggerBuild.



Lemma string_app_assoc (a b c : string) :
  ((a ++ b) ++ c = a ++ (b ++ c))%string.
Proof.
  induction a as [|ch a IH]; [reflexivity|].
  cbn [String.append]. rewrite IH. reflexivity.
Qed.

Lemma contains_job_name (job_name : string) :
  contains (job_not_found_msg job_name) job_name.
Proof.
  exists "Job not found: "%string.
  exists ("." ++ " Verify that you have permissions for the job and double check the spelling of its name.")%string.
  unfold job_not_found_msg.
  rewrite !string_app_assoc. reflexivity.
Qed.

Lemma contains_build_name (name : string) :
  contains ("Timed out waiting for build " ++ name ++ " to finish.") name.
Proof.
  exists "Timed out waiting for build "%string, " to finish."%string.
  reflexivity.
Qed.

(** C9.  With the connection made, [trigger_build] raises a [BackendError]
    whose message contains the job name when the server does not have the
    job; and when the job starts and the build keeps running, the polling
    loop uses up its [max_tries] polls (enough fuel given), and
    [trigger_build] raises the [BackendError] of [_poll_giveup], whose
    message contains the name of the build. *)
Theorem trigger_build_backend_error_messages
        (fuel : nat) (J : jenkins_server)
        (base_url user_name user_token job_name job_token : string)
        (job_cause : option string) (ps : list (string * string))
        (timeout : Q) :
  0 <= timeout ->
  srv_connect J = Ok tt ->
  (srv_has_job J job_name = Ok false ->
   exists msg,
     run (trigger_build fuel J base_url user_name user_token job_name
                        job_token job_cause (Some ps) timeout)
     = (Raised (BackendError msg),
        [EConnect base_url user_name user_token; EHasJob job_name])
     /\ contains msg job_name)
  /\
  (forall (queue_item url : string) (build : Build),
      srv_has_job J job_name = Ok true ->
      srv_getitem J job_name = Ok tt ->
      srv_invoke J = Ok queue_item ->
      srv_base_server_url J = Ok url ->
      srv_block_until_building J = Ok tt ->
      srv_get_build J = Ok build ->
      (forall k, srv_is_running J k = Ok true) ->
      exists wait_gen max_tries,
        _backoff_timeout timeout 2 1 = Ok (wait_gen, max_tries)
        /\ ((Z.to_nat max_tries <= fuel)%nat ->
            exists msg t,
              run (trigger_build fuel J base_url user_name user_token job_name
                                 job_token job_cause (Some ps) timeout)
              = (Raised (BackendError msg), t)
              /\ contains msg (build_name build)
              /\ polls_so_far t = Z.to_nat max_tries
              /\ sleeps t = first_waits wait_gen (Z.to_nat (max_tries - 1))
              /\ Qsum (sleeps t) == timeout)).
Proof.
  intros Ht Hconn.
  destruct (default_schedule_allows_a_poll timeout Ht)
    as (g & m & Hsched & Hm & Hsum).
  split.
  - intros Hjob. exists (job_not_found_msg job_name).
    split; [|apply contains_job_name].
    unfold_trigger. rewrite Hsched. cbn. rewrite Hconn. cbn.
    rewrite Hjob. reflexivity.
  - intros queue_item url build Hjob Hget Hinv Hurl Hblock Hbuild Hrun.
    exists g, m. split; [exact Hsched|]. intros Hfuel.
    exists ("Timed out waiting for build " ++ build_name build
            ++ " to finish.")%string.
    eexists. split; [|split; [apply contains_build_name|]].
    + unfold_trigger. rewrite Hsched. cbn. rewrite Hconn. cbn.
      rewrite Hjob. cbn. rewrite Hget. cbn. rewrite Hinv. cbn.
      rewrite Hurl. cbn. rewrite Hblock. cbn. rewrite Hbuild. cbn.
      unfold poll_build_for_result.
      rewrite retry_exhausts by (try assumption; lia).
      reflexivity.
    + split; [|split].
      * rewrite polls_so_far_app, polls_poll_trace. cbn. lia.
      * rewrite sleeps_app, sleeps_poll_trace. cbn [sleeps app].
        unfold first_waits, expo.
        replace (Z.to_nat (m - 0 - 1)) with (Z.to_nat (m - 1)) by lia.
        reflexivity.
      * rewrite sleeps_app, sleeps_poll_trace. cbn [sleeps app].
        unfold first_waits, expo in Hsum.
        replace (Z.to_nat (m - 0 - 1)) with (Z.to_nat (m - 1)) by lia.
        exact Hsum.
Qed.

Section ErrorBoundary.

Variable fuel : nat.
Variable J : jenkins_server.
Variables base_url user_name user_token job_name job_token : string.
Variable job_cause : option string.
Variable ps : list (string * string).
Variable timeout : Q.
Variable wait_gen : expo_closure.
Variable max_tries : Z.
Hypothesis schedule : _backoff_timeout timeout 2 1 = Ok (wait_gen, max_tries).

Local Abbreviation request_params :=
  (fold_left (fun d p => dict_set d (fst p) (snd p)) ps []).

Local Abbreviation go :=
  (run (trigger_build fuel J base_url user_name user_token job_name
                      job_token job_cause (Some ps) timeout)).

(** The steps of [trigger_build] one by one: each external call either
    ends the run with its exception or lets the next step happen. *)
Lemma trigger_build_run :
  go =
  let t1 := [EConnect base_url user_name user_token] in
  match srv_connect J with
  | Raise e =>
      (Raised (if connect_catches e then BackendError (exn_str e) else e), t1)
  | Ok _ =>
  let t2 := t1 ++ [EHasJob job_name] in
  match srv_has_job J job_name with
  | Raise e => (Raised e, t2)
  | Ok false => (Raised (BackendError (job_not_found_msg job_name)), t2)
  | Ok true =>
  let t3 := t2 ++ [EGetJob job_name] in
  match srv_getitem J job_name with
  | Raise e => (Raised e, t3)
  | Ok _ =>
  let t4 := t3 ++ [EInvoke job_token request_params job_cause] in
  match srv_invoke J with
  | Raise e => (Raised e, t4)
  | Ok queue_item =>
  let t5 := t4 ++ [EBaseServerUrl] in
  match srv_base_server_url J with
  | Raise e => (Raised e, t5)
  | Ok url =>
  let t6 := t5 ++ [ELogInfo ("Added item to jenkins. Server: " ++ url
                             ++ " Job: " ++ queue_item ++ " ");
                   EBlockUntilBuilding] in
  match srv_block_until_building J with
  | Raise e => (Raised e, t6)
  | Ok _ =>
  let t7 := t6 ++ [EGetBuild] in
  match srv_get_build J with
  | Raise e => (Raised e, t7)
  | Ok build =>
  let t8 := t7 ++ [ELogInfo ("Created build " ++ build_repr build);
                   ELogInfo ("See " ++ build_baseurl build)] in
  match poll_build_for_result fuel J wait_gen max_tries build t8 with
  | (Raised e, t9) => (Raised e, t9)
  | (Unfinished, t9) => (Unfinished, t9)
  | (Returned _, t9) =>
  match srv_get_status J with
  | Raise e => (Raised e, t9 ++ [EGetStatus])
  | Ok status =>
      (Returned status,
       t9 ++ [EGetStatus; ELogInfo ("Build status: " ++ status)])
  end end end end end end end end end.
Proof.
  unfold_trigger. rewrite schedule. cbn.
  destruct (srv_connect J) as [[]|e1]; cbn;
    [|destruct (connect_catches e1); reflexivity].
  destruct (srv_has_job J job_name) as [[|]|e2]; cbn; try reflexivity.
  destruct (srv_getitem J job_name) as [[]|e3]; cbn; try reflexivity.
  destruct (srv_invoke J) as [queue_item|e4]; cbn; try reflexivity.
  destruct (srv_base_server_url J) as [url|e5]; cbn; try reflexivity.
  destruct (srv_block_until_building J) as [[]|e6]; cbn; try reflexivity.
  destruct (srv_get_build J) as [build|e7]; cbn; try reflexivity.
  destruct (poll_build_for_result fuel J wait_gen max_tries build _)
    as [[ok|e8|] t9]; cbn; try reflexivity.
  destruct (srv_get_status J) as [status|e9]; cbn; try reflexivity.
  rewrite <- app_assoc. reflexivity.
Qed.

(** An exception that leaves [trigger_build] is a [BackendError] or was
    raised as it is by one of the collaborator's calls. *)
Lemma trigger_build_raises (e : exn) (t : list event) :
  go = (Raised e, t) ->
  is_BackendError e = true \/ raised_by_server J job_name e.
Proof.
  rewrite trigger_build_run. cbn zeta. unfold raised_by_server.
  destruct (srv_connect J) as [[]|e1] eqn:E1.
  2: { intros H. injection H as <- _.
       destruct (connect_catches e1); [left; reflexivity | right; tauto]. }
  destruct (srv_has_job J job_name) as [[|]|e2] eqn:E2.
  2: { intros H. injection H as <- _. left. reflexivity. }
  2: { intros H. injection H as <- _. right. tauto. }
  destruct (srv_getitem J job_name) as [[]|e3] eqn:E3.
  2: { intros H. injection H as <- _. right. tauto. }
  destruct (srv_invoke J) as [queue_item|e4] eqn:E4.
  2: { intros H. injection H as <- _. right. tauto. }
  destruct (srv_base_server_url J) as [url|e5] eqn:E5.
  2: { intros H. injection H as <- _. right. tauto. }
  destruct (srv_block_until_building J) as [[]|e6] eqn:E6.
  2: { intros H. injection H as <- _. right. tauto. }
  destruct (srv_get_build J) as [build|e7] eqn:E7.
  2: { intros H. injection H as <- _. right. tauto. }
  destruct (poll_build_for_result fuel J wait_gen max_tries build _)
    as [[ok|e8|] t9] eqn:E8.
  - destruct (srv_get_status J) as [status|e9] eqn:E9.
    + discriminate.
    + intros H. injection H as <- _. right. tauto.
  - intros H. injection H as <- _.
    unfold poll_build_for_result in E8.
    apply retry_raises in E8. destruct E8 as [E8|E8]; [left|right]; tauto.
  - discriminate.
Qed.

End ErrorBoundary.

(** What [trigger_build] does with failures, as the code has it:
    [BackendError] is raised for a [JenkinsAPIException] or [HTTPError] of
    the connection (with the text of that exception) and for a missing job,
    and neither is retried; an exception of another class raised while
    connecting, or raised by [has_job] or [invoke], passes as it is; whatever
    leaves [trigger_build] is a [BackendError] or an exception of the
    collaborator. *)
Theorem trigger_build_error_boundary
        (fuel : nat) (J : jenkins_server)
        (base_url user_name user_token job_name job_token : string)
        (job_cause : option string) (ps : list (string * string))
        (timeout : Q) :
  - (1) < timeout ->
  let go := run (trigger_build fuel J base_url user_name user_token job_name
                               job_token job_cause (Some ps) timeout) in
  (forall e, srv_connect J = Raise e ->
             go = (Raised (if connect_catches e
                           then BackendError (exn_str e) else e),
                   [EConnect base_url user_name user_token]))
  /\ (srv_connect J = Ok tt -> srv_has_job J job_name = Ok false ->
      go = (Raised (BackendError (job_not_found_msg job_name)),
            [EConnect base_url user_name user_token; EHasJob job_name]))
  /\ (forall e, srv_connect J = Ok tt -> srv_has_job J job_name = Raise e ->
                go = (Raised e,
                      [EConnect base_url user_name user_token;
                       EHasJob job_name]))
  /\ (forall e, srv_connect J = Ok tt -> srv_has_job J job_name = Ok true ->
                srv_getitem J job_name = Ok tt -> srv_invoke J = Raise e ->
                exists t, go = (Raised e, t))
  /\ (forall e t, go = (Raised e, t) ->
                  is_BackendError e = true \/ raised_by_server J job_name e).
Proof.
  intros Ht go.
  destruct (backoff_default_ok timeout Ht) as ([g m] & Hsched).
  pose proof (trigger_build_run fuel J base_url user_name user_token job_name
                job_token job_cause ps timeout g m Hsched) as Hrun.
  fold go in Hrun. cbn zeta in Hrun.
  repeat split.
  - intros e He. rewrite Hrun, He. reflexivity.
  - intros Hc Hj. rewrite Hrun, Hc, Hj. reflexivity.
  - intros e Hc Hj. rewrite Hrun, Hc, Hj. reflexivity.
  - intros e Hc Hj Hg Hi. rewrite Hrun, Hc, Hj, Hg, Hi.
    eexists. reflexivity.
  - intros e t H. subst go.
    eapply trigger_build_raises; eassumption.
Qed.

Lemma trigger_build_error_boundary_witness :
  run (trigger_build 12 Samples.server_login_refused
                     "https://jenkins.example" "user" "token" "test-project"
                     "job-token" None (Some [("FOO", "bar")]%string) (60 * 30))
  = (Raised (BackendError "401 Client Error: Unauthorized"),
     [EConnect "https://jenkins.example" "user" "token"]).
Proof.
  assert (Ht : - (1) < 60 * 30) by reflexivity.
  exact (proj1 (trigger_build_error_boundary
                  12 Samples.server_login_refused
                  "https://jenkins.example" "user" "token" "test-project"
                  "job-token" None [("FOO", "bar")]%string (60 * 30) Ht)
               (HTTPError "401 Client Error: Unauthorized") eq_refl).
Defined.

(** C4, where it fails.  The docstring of [trigger_build] promises
    [BackendError] when the job could not be triggered, and the connection is
    guarded against [JenkinsAPIException]; yet on a server that accepts the
    connection and has the job, a [JenkinsAPIException] raised by
    [job.invoke] leaves [trigger_build] as it is, not as a [BackendError]. *)
Lemma trigger_build_invoke_failure_escapes :
  run (trigger_build 12 Samples.server_invoke_fails
                     "https://jenkins.example" "user" "token" "test-project"
                     "job-token" None (Some [("FOO", "bar")]%string) (60 * 30))
  = (Raised (JenkinsAPIException "Operation failed"),
     [EConnect "https://jenkins.example" "user" "token";
      EHasJob "test-project"; EGetJob "test-project";
      EInvoke "job-token" [("FOO", "bar")]%string None])
  /\ is_BackendError (JenkinsAPIException "Operation failed") = false.
Proof.
  split; vm_compute; reflexivity.
Qed.

Lemma trigger_build_backend_error_messages_witness :
  (exists msg,
      run (trigger_build 5 (Samples.server false (fun _ => true))
                         "https://jenkins.example" "user" "token"
                         "test-project" "job-token" None (Some []) 10)
      = (Raised (BackendError msg),
         [EConnect "https://jenkins.example" "user" "token";
          EHasJob "test-project"])
      /\ contains msg "test-project")
  /\ (exists wait_gen max_tries,
         _backoff_timeout 10 2 1 = Ok (wait_gen, max_tries)
         /\ ((Z.to_nat max_tries <= 5)%nat ->
             exists msg t,
               run (trigger_build 5 (Samples.server true (fun _ => true))
                                  "https://jenkins.example" "user" "token"
                                  "test-project" "job-token" None (Some []) 10)
               = (Raised (BackendError msg), t)
               /\ contains msg "test-project #7"
               /\ polls_so_far t = Z.to_nat max_tries
               /\ sleeps t = first_waits wait_gen (Z.to_nat (max_tries - 1))
               /\ Qsum (sleeps t) == 10)).
Proof.
  assert (Ht : 0 <= 10) by (unfold Qle; simpl; lia).
  split.
  - apply (trigger_build_backend_error_messages
             5 (Samples.server false (fun _ => true))
             "https://jenkins.example" "user" "token" "test-project"
             "job-token" None [] 10 Ht eq_refl).
    reflexivity.
  - apply (proj2 (trigger_build_backend_error_messages
                    5 (Samples.server true (fun _ => true))
                    "https://jenkins.example" "user" "token" "test-project"
                    "job-token" None [] 10 Ht eq_refl)
                 "queue item 3"%string "https://jenkins.example"%string
                 Samples.build7);
      reflexivity.
Defined.

(** ** The empty schedule *)

Lemma floor_log_of_one (base x : Q) :
  1 < base -> x == 1 -> floor_log base x = 0%Z.
Proof.
  intros Hb Hx.
  pose proof (floor_log_nonneg base x) as Hge.
  assert (Hx1 : 1 <= x) by lra.
  destruct (Z_le_gt_dec 1 (floor_log base x)) as [H|H]; [|lia].
  apply (floor_log_largest base x Hb Hx1 1%Z) in H.
  change (base ^ 1) with base in H. lra.
Qed.

(** C8.  For [timeout = 0] and any [base > 1], [factor > 0] the schedule has
    [tries = 0] and [max_tries = 1], so no wait value is used; the polling
    loop run with it polls once and ends there, whatever the answer: it
    returns when the build has finished, gives up with [BackendError] when it
    is running, and passes on the exception when the poll raises.  It never
    asks the wait generator for a value and never sleeps. *)
Theorem backoff_zero_timeout_single_attempt (base factor : Q) :
  1 < base -> 0 < factor ->
  exists wait_gen,
    _backoff_timeout 0 base factor = Ok (wait_gen, 1%Z)
    /\ expo_tries wait_gen = 0%Z
    /\ first_waits wait_gen (Z.to_nat (1 - 1)) = []
    /\ forall (fuel : nat) (J : jenkins_server) (build : Build)
              (t : list event),
         poll_build_for_result (S fuel) J wait_gen 1 build t
         = (match srv_is_running J (polls_so_far t) with
            | Raise e => Raised e
            | Ok false => Returned true
            | Ok true =>
                Raised (BackendError ("Timed out waiting for build "
                                      ++ build_name build ++ " to finish."))
            end, t ++ [EIsRunning]).
Proof.
  intros Hb Hf.
  rewrite _backoff_timeout_unfold by lra.
  rewrite (floor_log_of_one base (0 * (base - 1) / factor + 1) Hb)
    by (field; lra).
  unfold backoff_from_tries.
  rewrite py_div_ok by lra. cbn [obind].
  assert (E : Qeq_bool (0 - factor * (base ^ 0 - 1) / (base - 1)) 0 = true).
  { apply Qeq_bool_iff. change (base ^ 0) with 1. field. lra. }
  rewrite E. eexists. split; [reflexivity|].
  split; [reflexivity|]. split; [reflexivity|].
  intros fuel J build t. unfold poll_build_for_result.
  apply retry_single_attempt. reflexivity.
Qed.

Lemma backoff_zero_timeout_single_attempt_witness :
  exists wait_gen,
    _backoff_timeout 0 2 1 = Ok (wait_gen, 1%Z)
    /\ expo_tries wait_gen = 0%Z
    /\ first_waits wait_gen (Z.to_nat (1 - 1)) = []
    /\ forall (fuel : nat) (J : jenkins_server) (build : Build)
              (t : list event),
         poll_build_for_result (S fuel) J wait_gen 1 build t
         = (match srv_is_running J (polls_so_far t) with
            | Raise e => Raised e
            | Ok false => Returned true
            | Ok true =>
                Raised (BackendError ("Timed out waiting for build "
                                      ++ build_name build ++ " to finish."))
            end, t ++ [EIsRunning]).
Proof.
  apply (backoff_zero_timeout_single_attempt 2 1); reflexivity.
Defined.

(** ** Loading [tubular.jenkins] *)

(** C3.  [tubular/exception.py] binds [TimeoutException],
    [ImageNotFoundException] and [MissingTagException] and no
    [BackendError]; so [from tubular.exception import BackendError] raises
    [ImportError], executing [tubular/jenkins.py] ends there, and no name of
    the module, [trigger_build] and [_backoff_timeout] included, can be
    imported from it. *)
Theorem tubular_jenkins_cannot_be_imported :
  (forall name,
      In name Loader.tubular_exception
      <-> name = "TimeoutException"%string
          \/ name = "ImageNotFoundException"%string
          \/ name = "MissingTagException"%string)
  /\ ~ In "BackendError"%string Loader.tubular_exception
  /\ Loader.import_from Loader.tubular_exception "BackendError"
     = Raise (ImportError "cannot import name BackendError")
  /\ Loader.load_tubular_jenkins
     = Raise (ImportError "cannot import name BackendError")
  /\ forall name,
       Loader.from_tubular_jenkins_import name
       = Raise (ImportError "cannot import name BackendError").
Proof.
  split.
  { intros name. unfold Loader.tubular_exception. cbn [In].
    split; intros H; repeat destruct H as [H|H]; subst; auto; try contradiction. }
  split.
  { unfold Loader.tubular_exception. cbn [In].
    intros H. repeat destruct H as [H|H]; try discriminate H; exact H. }
  repeat split.
Qed.

(** ** The logarithm at an exact power, in doubles *)

(** C2, where it fails.  At [timeout = 111], [base = 10], [factor = 1] the
    argument of the logarithm is 1000 and the progression 1, 10, 100 sums to
    111: the largest [K] whose exponential sum does not exceed [timeout] is
    3, and that is the [tries] of the exact schedule.  In double precision
    [math.log(1000, 10)] is 2.9999999999999996, so the code runs its
    remaining lines with [tries = 2]; from there it takes 100 for the
    remainder and returns [max_tries = tries + 2 = 4], although [K = 3] still
    fits the timeout. *)
Theorem backoff_111_base_10 :
  (exists sched,
      _backoff_timeout 111 10 1 = Ok sched /\ tries_of sched = 3%Z)
  /\ (forall K : Z, exp_sum 10 1 K <= 111 <-> (K <= 3)%Z)
  /\ (exists wait_gen,
         backoff_from_tries 2 111 10 1 = Ok (wait_gen, 4%Z)
         /\ expo_tries wait_gen = 2%Z
         /\ expo_remainder wait_gen == 100
         /\ exp_sum 10 1 (expo_tries wait_gen + 1) <= 111).
Proof.
  split; [eexists; split; vm_compute; reflexivity|].
  split.
  - destruct (tries_is_largest_exponent 111 10 1) as (sched & Hs & HK);
      try reflexivity; [discriminate|].
    vm_compute in Hs. injection Hs as <-. exact HK.
  - eexists. split; [vm_compute; reflexivity|].
    repeat split; vm_compute; discriminate.
Qed.

(** ** Further properties of the wait generator *)

Lemma expo_take_closed_form (c : expo_closure) (k : nat) :
  forall n : Z,
    expo_take c k n
    = map (fun i =>
             if (n + Z.of_nat i <? expo_tries c)%Z
             then expo_factor c * expo_base c ^ (n + Z.of_nat i)
             else expo_remainder c)
          (seq 0 k).
Proof.
  induction k as [|k IH]; intros n; [reflexivity|].
  cbn [expo_take seq map].
  rewrite <- seq_shift, map_map.
  unfold expo_next.
  destruct (Z.geb_spec n (expo_tries c)) as [Hge|Hlt].
  - rewrite IH.
    destruct (Z.ltb_spec (n + Z.of_nat 0) (expo_tries c)); [lia|].
    f_equal. apply map_ext. intros i.
    destruct (Z.ltb_spec (n + Z.of_nat i) (expo_tries c)); [lia|].
    destruct (Z.ltb_spec (n + Z.of_nat (S i)) (expo_tries c)); [lia|].
    reflexivity.
  - rewrite IH.
    destruct (Z.ltb_spec (n + Z.of_nat 0) (expo_tries c)); [|lia].
    replace (n + Z.of_nat 0)%Z with n by lia.
    f_equal. apply map_ext. intros i.
    replace (n + 1 + Z.of_nat i)%Z with (n + Z.of_nat (S i))%Z by lia.
    reflexivity.
Qed.

(** The values of a fresh generator, position by position. *)
Lemma first_waits_map_seq (c : expo_closure) (k : nat) :
  first_waits c k = map (expo_value c) (seq 0 k).
Proof.
  unfold first_waits, expo. rewrite (expo_take_closed_form c k 0).
  apply map_ext. intros i. unfold expo_value.
  rewrite Z.add_0_l. reflexivity.
Qed.

(** X1.  A fresh generator never runs dry: any number [k] of values can be
    taken, and the value at position [i] is [factor * base^i] while
    [i < tries] and the remainder at every later position. *)
Theorem first_waits_closed_form (c : expo_closure) (k : nat) :
  first_waits c k = map (expo_value c) (seq 0 k).
Proof.
  unfold first_waits, expo. rewrite expo_take_closed_form.
  apply map_ext. intros i. unfold expo_value.
  replace (0 + Z.of_nat i)%Z with (Z.of_nat i) by lia.
  reflexivity.
Qed.




(** ** Further properties of the schedule *)

Section ExponentialSums.

Variables base factor : Q.
Hypothesis base_gt_1 : 1 < base.

Lemma exp_sum_step (k : Z) :
  exp_sum base factor (k + 1) == exp_sum base factor k + factor * base ^ k.
Proof.
  unfold exp_sum. rewrite Qpower_plus by lra.
  change (base ^ 1) with base. field. lra.
Qed.

Hypothesis factor_pos : 0 < factor.





End ExponentialSums.







Lemma Forall2_map_seq {A : Type} (R : A -> A -> Prop) (f g : nat -> A)
      (l : list nat) :
  (forall i, In i l -> R (f i) (g i)) -> Forall2 R (map f l) (map g l).
Proof.
  induction l as [|i l IH]; intros H; cbn [map]; constructor.
  - apply H. left. reflexivity.
  - apply IH. intros j Hj. apply H. right. exact Hj.
Qed.

(** X5.  Lines 57-77 started with a [tries] that is one too small at an exact
    sum: when [timeout] is the sum of [K >= 1] terms of the progression, the
    schedule built from [tries = K - 1] has the same [max_tries = K + 1] and
    the same first [max_tries - 1] waits as the one built from [tries = K];
    the capped value stands in for the last term of the progression. *)
Theorem schedule_same_from_one_less (K : Z) (timeout base factor : Q) :
  (1 <= K)%Z -> 1 < base -> 0 < factor ->
  timeout == exp_sum base factor K ->
  exists g g',
    backoff_from_tries K timeout base factor = Ok (g, (K + 1)%Z)
    /\ backoff_from_tries (K - 1) timeout base factor = Ok (g', (K + 1)%Z)
    /\ Forall2 Qeq (first_waits g (Z.to_nat (K + 1 - 1)))
                   (first_waits g' (Z.to_nat (K + 1 - 1))).
Proof.
  intros HK Hb Hf Hsum.
  unfold backoff_from_tries. rewrite !py_div_ok by lra. cbn [obind].
  assert (Hstep : exp_sum base factor K
                  == exp_sum base factor (K - 1) + factor * base ^ (K - 1)).
  { rewrite <- (exp_sum_step base factor Hb (K - 1)).
    replace (K - 1 + 1)%Z with K by lia. reflexivity. }
  assert (Hpow : 0 < factor * base ^ (K - 1)).
  { apply Qmult_lt_0_compat; [assumption|]. apply Qpower_0_lt. lra. }
  unfold exp_sum in Hsum, Hstep.
  assert (E1 : Qeq_bool (timeout - factor * (base ^ K - 1) / (base - 1)) 0
               = true) by (apply Qeq_bool_iff; lra).
  assert (E2 : Qeq_bool (timeout - factor * (base ^ (K - 1) - 1) / (base - 1)) 0
               = false) by (apply Qeq_bool_false_iff; lra).
  rewrite E1, E2.
  replace (K - 1 + 2)%Z with (K + 1)%Z by lia.
  eexists. eexists. split; [reflexivity|]. split; [reflexivity|].
  rewrite !first_waits_map_seq.
  apply Forall2_map_seq. intros i Hi. apply in_seq in Hi.
  unfold expo_value. cbn [expo_tries expo_factor expo_base expo_remainder].
  destruct (Z.ltb_spec (Z.of_nat i) K) as [H1|H1]; [|lia].
  destruct (Z.ltb_spec (Z.of_nat i) (K - 1)) as [H2|H2].
  - reflexivity.
  - replace (Z.of_nat i) with (K - 1)%Z by lia. lra.
Qed.

Lemma schedule_same_from_one_less_witness :
  exists g g',
    backoff_from_tries 3 111 10 1 = Ok (g, (3 + 1)%Z)
    /\ backoff_from_tries (3 - 1) 111 10 1 = Ok (g', (3 + 1)%Z)
    /\ Forall2 Qeq (first_waits g (Z.to_nat (3 + 1 - 1)))
                   (first_waits g' (Z.to_nat (3 + 1 - 1))).
Proof.
  apply (schedule_same_from_one_less 3 111 10 1);
    [lia | reflexivity | reflexivity | reflexivity].
Defined.

(** X6.  Lines 57-77 started with a [tries] that is too large, so that the
    sum of [tries] terms of the progression exceeds [timeout]: the remainder
    is negative, [max_tries] is [tries + 2], and the last of the
    [max_tries - 1] waits is that negative remainder. *)
Theorem schedule_from_too_many_tries (tries : Z) (timeout base factor : Q) :
  (0 <= tries)%Z -> ~ base == 1 ->
  timeout < exp_sum base factor tries ->
  exists g,
    backoff_from_tries tries timeout base factor = Ok (g, (tries + 2)%Z)
    /\ expo_remainder g < 0
    /\ nth_error (first_waits g (Z.to_nat (tries + 2 - 1))) (Z.to_nat tries)
       = Some (expo_remainder g).
Proof.
  intros Ht Hb Hsum.
  unfold backoff_from_tries. rewrite py_div_ok by lra. cbn [obind].
  unfold exp_sum in Hsum.
  assert (E : Qeq_bool (timeout - factor * (base ^ tries - 1) / (base - 1)) 0
              = false) by (apply Qeq_bool_false_iff; lra).
  rewrite E. eexists. split; [reflexivity|].
  cbn [expo_remainder]. split; [lra|].
  rewrite first_waits_map_seq.
  rewrite nth_error_map.
  rewrite nth_error_seq.
  destruct (Nat.ltb_spec (Z.to_nat tries) (Z.to_nat (tries + 2 - 1))); [|lia].
  cbn [option_map]. unfold expo_value. cbn [expo_tries expo_remainder].
  destruct (Z.ltb_spec (Z.of_nat (0 + Z.to_nat tries)) tries); [lia|].
  reflexivity.
Qed.

Lemma schedule_from_too_many_tries_witness :
  exists g,
    backoff_from_tries 4 10 2 1 = Ok (g, (4 + 2)%Z)
    /\ expo_remainder g < 0
    /\ nth_error (first_waits g (Z.to_nat (4 + 2 - 1))) (Z.to_nat 4)
       = Some (expo_remainder g).
Proof.
  apply (schedule_from_too_many_tries 4 10 2 1);
    [lia | discriminate | reflexivity].
Defined.

(** ** Further properties of the polling loop *)

Lemma polls_so_far_snoc_poll (t : list event) :
  polls_so_far (t ++ [EIsRunning]) = S (polls_so_far t).
Proof. rewrite polls_so_far_app. cbn. lia. Qed.

Lemma polls_so_far_snoc_sleep (t : list event) (v : Q) :
  polls_so_far (t ++ [ESleep v]) = polls_so_far t.
Proof. rewrite polls_so_far_app. cbn. lia. Qed.

Section PollingOutcome.

Variable J : jenkins_server.
Variable wait_gen : expo_closure.
Variable max_tries : Z.
Variable build : Build.

Local Abbreviation timed_out :=
  (Raised (BackendError ("Timed out waiting for build "
                         ++ build_name build ++ " to finish."))).

(** What the loop does once the budget allows it to finish: it polls while
    the build runs and stops at the first poll [k] that raises or finds the
    build finished, or at the last poll of the budget. *)
Lemma retry_outcome (fuel : nat) :
  forall (tries n : Z) (t : list event),
    (tries < max_tries)%Z ->
    (Z.to_nat (max_tries - tries) <= fuel)%nat ->
    exists k : nat,
      (Z.of_nat k < max_tries - tries)%Z
      /\ (forall j, (j < k)%nat ->
                    srv_is_running J (polls_so_far t + j) = Ok true)
      /\ (srv_is_running J (polls_so_far t + k) = Ok true ->
          Z.of_nat k = (max_tries - tries - 1)%Z)
      /\ retry fuel (poll_target J) _poll_giveup [build] wait_gen max_tries
               tries n t
         = (match srv_is_running J (polls_so_far t + k) with
            | Raise e => Raised e
            | Ok false => Returned true
            | Ok true => timed_out
            end, t ++ poll_trace wait_gen k n).
Proof.
  induction fuel as [|fuel IH]; intros tries n t Hlt Hfuel; [lia|].
  rewrite retry_step.
  destruct (srv_is_running J (polls_so_far t)) as [[|]|e] eqn:E.
  - destruct (Z.eqb_spec (tries + 1) max_tries) as [Em|Em].
    + exists O. rewrite Nat.add_0_r, E.
      split; [lia|]. split; [intros j Hj; lia|]. split; [lia|reflexivity].
    + destruct (IH (tries + 1)%Z (snd (expo_next wait_gen n))
                   ((t ++ [EIsRunning])
                      ++ [ESleep (fst (expo_next wait_gen n))]))
        as (k & Hk & Hbefore & Hlast & Hrun); [lia|lia|].
      rewrite polls_so_far_snoc_sleep, polls_so_far_snoc_poll in *.
      exists (S k).
      replace (polls_so_far t + S k)%nat with (S (polls_so_far t) + k)%nat
        by lia.
      split; [lia|]. split; [|split].
      * intros [|j] Hj.
        -- rewrite Nat.add_0_r. exact E.
        -- replace (polls_so_far t + S j)%nat
             with (S (polls_so_far t) + j)%nat by lia.
           apply Hbefore. lia.
      * intros H. specialize (Hlast H). lia.
      * rewrite Hrun. cbn [poll_trace]. rewrite <- !app_assoc. reflexivity.
  - exists O. rewrite Nat.add_0_r, E.
    split; [lia|]. split; [intros j Hj; lia|].
    split; [discriminate|reflexivity].
  - exists O. rewrite Nat.add_0_r, E.
    split; [lia|]. split; [intros j Hj; lia|].
    split; [discriminate|reflexivity].
Qed.

(** The build finishing at poll [k] within the budget. *)
Lemma retry_succeeds (k : nat) :
  forall (fuel : nat) (tries n : Z) (t : list event),
    (k < fuel)%nat ->
    (tries + Z.of_nat k < max_tries)%Z ->
    (forall j, (j < k)%nat ->
               srv_is_running J (polls_so_far t + j) = Ok true) ->
    srv_is_running J (polls_so_far t + k) = Ok false ->
    retry fuel (poll_target J) _poll_giveup [build] wait_gen max_tries
          tries n t
    = (Returned true, t ++ poll_trace wait_gen k n).
Proof.
  induction k as [|k IH]; intros fuel tries n t Hfuel Hlt Hbefore Hk;
    (destruct fuel as [|fuel]; [lia|]); rewrite retry_step.
  - rewrite Nat.add_0_r in Hk. rewrite Hk. reflexivity.
  - pose proof (Hbefore O ltac:(lia)) as H0.
    rewrite Nat.add_0_r in H0. rewrite H0.
    destruct (Z.eqb_spec (tries + 1) max_tries) as [Em|Em]; [lia|].
    rewrite IH.
    + cbn [poll_trace]. rewrite <- !app_assoc. reflexivity.
    + lia.
    + lia.
    + intros j Hj.
      rewrite polls_so_far_snoc_sleep, polls_so_far_snoc_poll.
      replace (S (polls_so_far t) + j)%nat
        with (polls_so_far t + S j)%nat by lia.
      apply Hbefore. lia.
    + rewrite polls_so_far_snoc_sleep, polls_so_far_snoc_poll.
      replace (S (polls_so_far t) + k)%nat
        with (polls_so_far t + S k)%nat by lia.
      exact Hk.
Qed.

(** Whatever the fuel, the loop only adds polls and sleeps to the trace. *)
Lemma retry_trace_extends (fuel : nat) :
  forall (tries n : Z) (t t' : list event) (r : result bool),
    retry fuel (poll_target J) _poll_giveup [build] wait_gen max_tries
          tries n t = (r, t') ->
    exists ext, t' = t ++ ext /\ forallb is_poll_event ext = true.
Proof.
  induction fuel as [|fuel IH]; intros tries n t t' r H.
  - injection H as _ <-. exists []. rewrite app_nil_r. split; reflexivity.
  - rewrite retry_step in H.
    destruct (srv_is_running J (polls_so_far t)) as [[|]|e].
    + destruct (tries + 1 =? max_tries)%Z.
      * injection H as _ <-. exists [EIsRunning]. split; reflexivity.
      * apply IH in H. destruct H as (ext & -> & Hext).
        exists (EIsRunning :: ESleep (fst (expo_next wait_gen n)) :: ext).
        rewrite <- !app_assoc. split; [reflexivity|]. exact Hext.
    + injection H as _ <-. exists [EIsRunning]. split; reflexivity.
    + injection H as _ <-. exists [EIsRunning]. split; reflexivity.
Qed.

(** Whatever the fuel, the loop sleeps on the values of the generator in
    order, and on at most [max_tries - tries - 1] of them. *)
Lemma retry_sleeps_prefix (fuel : nat) :
  forall (tries n : Z) (t t' : list event) (r : result bool),
    (tries < max_tries)%Z ->
    retry fuel (poll_target J) _poll_giveup [build] wait_gen max_tries
          tries n t = (r, t') ->
    exists k : nat,
      (Z.of_nat k <= max_tries - tries - 1)%Z
      /\ sleeps t' = sleeps t ++ expo_take wait_gen k n.
Proof.
  induction fuel as [|fuel IH]; intros tries n t t' r Hlt H.
  - injection H as _ <-. exists O. rewrite app_nil_r. split; [lia|reflexivity].
  - rewrite retry_step in H.
    assert (Hstop : forall r0, (r0, t ++ [EIsRunning]) = (r, t') ->
              exists k : nat,
                (Z.of_nat k <= max_tries - tries - 1)%Z
                /\ sleeps t' = sleeps t ++ expo_take wait_gen k n).
    { intros r0 H0. injection H0 as _ <-. exists O.
      rewrite sleeps_app. split; [lia|reflexivity]. }
    destruct (srv_is_running J (polls_so_far t)) as [[|]|e];
      try (eapply Hstop; exact H).
    destruct (Z.eqb_spec (tries + 1) max_tries) as [Em|Em];
      [eapply Hstop; exact H|].
    apply IH in H; [|lia]. destruct H as (k & Hk & Hs).
    exists (S k). split; [lia|].
    rewrite Hs, !sleeps_app. cbn [sleeps expo_take app].
    destruct (expo_next wait_gen n) as [v n']. cbn [fst snd].
    rewrite app_nil_r, <- app_assoc. reflexivity.
Qed.

(** A loop that returns has seen the build finished. *)
Lemma retry_returned (fuel : nat) :
  forall (tries n : Z) (t t' : list event) (b : bool),
    retry fuel (poll_target J) _poll_giveup [build] wait_gen max_tries
          tries n t = (Returned b, t') ->
    b = true
    /\ exists k : nat,
         (forall j, (j < k)%nat ->
                    srv_is_running J (polls_so_far t + j) = Ok true)
         /\ srv_is_running J (polls_so_far t + k) = Ok false
         /\ t' = t ++ poll_trace wait_gen k n.
Proof.
  induction fuel as [|fuel IH]; intros tries n t t' b H; [discriminate H|].
  rewrite retry_step in H.
  destruct (srv_is_running J (polls_so_far t)) as [[|]|e] eqn:E.
  - destruct (tries + 1 =? max_tries)%Z; [discriminate H|].
    apply IH in H. destruct H as (Hb & k & Hbefore & Hk & Ht).
    rewrite polls_so_far_snoc_sleep, polls_so_far_snoc_poll in *.
    split; [exact Hb|]. exists (S k). split; [|split].
    + intros [|j] Hj.
      * rewrite Nat.add_0_r. exact E.
      * replace (polls_so_far t + S j)%nat
          with (S (polls_so_far t) + j)%nat by lia.
        apply Hbefore. lia.
    + replace (polls_so_far t + S k)%nat
        with (S (polls_so_far t) + k)%nat by lia.
      exact Hk.
    + rewrite Ht. cbn [poll_trace]. rewrite <- !app_assoc. reflexivity.
  - injection H as <- <-. split; [reflexivity|]. exists O.
    rewrite Nat.add_0_r. split; [intros j Hj; lia|].
    split; [exact E|reflexivity].
  - discriminate H.
Qed.

End PollingOutcome.

(** X7.  The polling loop with a budget of [max_tries >= 1] polls (and fuel
    for them) always ends: it polls while the build is running and stops at
    the first poll, number [k < max_tries], that finds the build finished
    (returns), raises (the exception passes), or is the last of the budget
    (gives up with [BackendError]).  Between the polls it sleeps on the first
    [k] values of the generator, in order. *)
Theorem poll_build_for_result_outcome
        (fuel : nat) (J : jenkins_server) (wait_gen : expo_closure)
        (max_tries : Z) (build : Build) (t : list event) :
  (1 <= max_tries)%Z -> (Z.to_nat max_tries <= fuel)%nat ->
  exists k : nat,
    (Z.of_nat k < max_tries)%Z
    /\ (forall j, (j < k)%nat -> srv_is_running J (polls_so_far t + j) = Ok true)
    /\ (srv_is_running J (polls_so_far t + k) = Ok true ->
        Z.of_nat k = (max_tries - 1)%Z)
    /\ poll_build_for_result fuel J wait_gen max_tries build t
       = (match srv_is_running J (polls_so_far t + k) with
          | Raise e => Raised e
          | Ok false => Returned true
          | Ok true =>
              Raised (BackendError ("Timed out waiting for build "
                                    ++ build_name build ++ " to finish."))
          end, t ++ poll_trace wait_gen k (expo wait_gen))
    /\ sleeps (poll_trace wait_gen k (expo wait_gen)) = first_waits wait_gen k.
Proof.
  intros Hm Hfuel. unfold poll_build_for_result.
  destruct (retry_outcome J wait_gen max_tries build fuel 0 (expo wait_gen) t)
    as (k & Hk & Hbefore & Hlast & Hrun); [lia|lia|].
  exists k. split; [lia|]. split; [exact Hbefore|].
  split; [intros H; specialize (Hlast H); lia|].
  split; [exact Hrun|]. apply sleeps_poll_trace.
Qed.

Lemma poll_build_for_result_outcome_witness :
  exists k : nat,
    (Z.of_nat k < 5)%Z
    /\ poll_build_for_result 5 (Samples.server true (fun j => Nat.ltb j 2))
                             (mk_expo 1 2 3 3) 5 Samples.build7 []
       = (match srv_is_running (Samples.server true (fun j => Nat.ltb j 2))
                               (polls_so_far [] + k) with
          | Raise e => Raised e
          | Ok false => Returned true
          | Ok true =>
              Raised (BackendError ("Timed out waiting for build "
                                    ++ build_name Samples.build7
                                    ++ " to finish."))
          end, [] ++ poll_trace (mk_expo 1 2 3 3) k (expo (mk_expo 1 2 3 3))).
Proof.
  destruct (poll_build_for_result_outcome
              5 (Samples.server true (fun j => Nat.ltb j 2))
              (mk_expo 1 2 3 3) 5 Samples.build7 [])
    as (k & Hk & _ & _ & Hrun & _); [lia | simpl; lia |].
  exists k. split; [exact Hk | exact Hrun].
Defined.

(** ** Further properties of [trigger_build] *)

Lemma invokes_app (t1 t2 : list event) :
  invokes (t1 ++ t2) = (invokes t1 + invokes t2)%nat.
Proof. unfold invokes. rewrite filter_app, length_app. reflexivity. Qed.

Lemma invokes_poll_trace (wait_gen : expo_closure) (k : nat) :
  forall n, invokes (poll_trace wait_gen k n) = O.
Proof.
  induction k as [|k IH]; intros n; [reflexivity|].
  cbn [poll_trace].
  change (invokes (EIsRunning :: ESleep (fst (expo_next wait_gen n))
                     :: poll_trace wait_gen k (snd (expo_next wait_gen n))))
    with (invokes (poll_trace wait_gen k (snd (expo_next wait_gen n)))).
  apply IH.
Qed.

Lemma poll_events_no_invoke (ext : list event) :
  forallb is_poll_event ext = true ->
  invokes ext = O
  /\ forall tok rp cause, ~ In (EInvoke tok rp cause) ext.
Proof.
  induction ext as [|ev ext IH]; intros H.
  - split; [reflexivity|]. intros tok rp cause [].
  - cbn [forallb] in H. apply andb_true_iff in H. destruct H as [Hev Hext].
    destruct (IH Hext) as [Hn Hin].
    split.
    + destruct ev; try discriminate Hev; exact Hn.
    + intros tok rp cause [E|Hi].
      * subst ev. discriminate Hev.
      * exact (Hin tok rp cause Hi).
Qed.

Lemma polls_so_far_poll_events_prefix (t ext : list event) :
  polls_so_far t = O -> polls_so_far (t ++ ext) = polls_so_far ext.
Proof. intros H. rewrite polls_so_far_app, H. reflexivity. Qed.

(** X8.  A [timeout <= -1] makes [trigger_build] raise the [ValueError] of
    [math.log] before [job_params] is looked at and before anything is sent
    to the server. *)
Theorem trigger_build_timeout_domain_error
        (fuel : nat) (J : jenkins_server)
        (base_url user_name user_token job_name job_token : string)
        (job_cause : option string)
        (job_params : option (list (string * string))) (timeout : Q) :
  timeout <= - (1) ->
  run (trigger_build fuel J base_url user_name user_token job_name job_token
                     job_cause job_params timeout)
  = (Raised (ValueError "math domain error"), []).
Proof.
  intros Ht. unfold_trigger.
  rewrite (backoff_default_domain_error timeout Ht). reflexivity.
Qed.

Lemma trigger_build_timeout_domain_error_witness :
  run (trigger_build 5 (Samples.server true (fun _ => false))
                     "https://jenkins.example" "user" "token" "test-project"
                     "job-token" None (Some []) (- (1)))
  = (Raised (ValueError "math domain error"), []).
Proof.
  apply (trigger_build_timeout_domain_error
           5 (Samples.server true (fun _ => false))
           "https://jenkins.example" "user" "token" "test-project"
           "job-token" None (Some []) (- (1))).
  unfold Qle; simpl; lia.
Defined.

Section Runs.

Variable fuel : nat.
Variable J : jenkins_server.
Variables base_url user_name user_token job_name job_token : string.
Variable job_cause : option string.
Variable ps : list (string * string).
Variable timeout : Q.
Variable wait_gen : expo_closure.
Variable max_tries : Z.
Hypothesis schedule : _backoff_timeout timeout 2 1 = Ok (wait_gen, max_tries).

Local Abbreviation request_params :=
  (fold_left (fun d p => dict_set d (fst p) (snd p)) ps []).

Local Abbreviation go :=
  (run (trigger_build fuel J base_url user_name user_token job_name
                      job_token job_cause (Some ps) timeout)).

(** The job is invoked at most once, with the token, parameters and cause
    of the call, and only on a server that accepted the connection and has
    the job. *)
Lemma trigger_build_invokes_some :
  (invokes (snd go) <= 1)%nat
  /\ forall tok rp cause,
       In (EInvoke tok rp cause) (snd go) ->
       srv_connect J = Ok tt
       /\ srv_has_job J job_name = Ok true
       /\ tok = job_token /\ rp = request_params /\ cause = job_cause.
Proof.
  rewrite (trigger_build_run fuel J base_url user_name user_token job_name
             job_token job_cause ps timeout wait_gen max_tries schedule).
  cbn zeta.
  assert (Hno : forall (r : result string) (t : list event),
             forallb (fun ev => match ev with EInvoke _ _ _ => false | _ => true end) t = true ->
             (invokes (snd (r, t)) <= 1)%nat
             /\ forall tok rp cause,
                  In (EInvoke tok rp cause) (snd (r, t)) ->
                  srv_connect J = Ok tt
                  /\ srv_has_job J job_name = Ok true
                  /\ tok = job_token /\ rp = request_params
                  /\ cause = job_cause).
  { intros r t Ht. cbn [snd]. split.
    - unfold invokes. induction t as [|ev t IH]; [cbn; lia|].
      cbn [forallb] in Ht. apply andb_true_iff in Ht. destruct Ht as [Hev Ht].
      destruct ev; try discriminate Hev; cbn [filter]; apply IH; exact Ht.
    - intros tok rp cause Hin. exfalso.
      rewrite forallb_forall in Ht. specialize (Ht _ Hin). discriminate Ht. }
  destruct (srv_connect J) as [[]|e1] eqn:E1; [|apply Hno; reflexivity].
  destruct (srv_has_job J job_name) as [[|]|e2] eqn:E2;
    try (apply Hno; reflexivity).
  assert (Hyes : forall (r : result string) (pre ext : list event),
             forallb (fun ev => match ev with EInvoke _ _ _ => false | _ => true end) pre = true ->
             forallb (fun ev => match ev with EInvoke _ _ _ => false | _ => true end) ext = true ->
             (invokes (snd (r, pre ++ EInvoke job_token request_params job_cause :: ext)) <= 1)%nat
             /\ forall tok rp cause,
                  In (EInvoke tok rp cause)
                     (snd (r, pre ++ EInvoke job_token request_params job_cause :: ext)) ->
                  Ok tt = Ok tt
                  /\ Ok true = Ok true
                  /\ tok = job_token /\ rp = request_params
                  /\ cause = job_cause).
  { intros r pre ext Hpre Hext. cbn [snd].
    destruct (Hno r pre Hpre) as [Hp1 Hp2].
    destruct (Hno r ext Hext) as [He1 He2]. cbn [snd] in *.
    assert (Hp0 : invokes pre = O).
    { unfold invokes in *. clear - Hpre.
      induction pre as [|ev pre IH]; [reflexivity|].
      cbn [forallb] in Hpre. apply andb_true_iff in Hpre.
      destruct Hpre as [Hev Hpre].
      destruct ev; try discriminate Hev; cbn [filter]; apply IH; exact Hpre. }
    assert (He0 : invokes ext = O).
    { unfold invokes in *. clear - Hext.
      induction ext as [|ev ext IH]; [reflexivity|].
      cbn [forallb] in Hext. apply andb_true_iff in Hext.
      destruct Hext as [Hev Hext].
      destruct ev; try discriminate Hev; cbn [filter]; apply IH; exact Hext. }
    split.
    - rewrite invokes_app.
      change (invokes (EInvoke job_token request_params job_cause :: ext))
        with (S (invokes ext)).
      lia.
    - intros tok rp cause Hin. apply in_app_or in Hin.
      destruct Hin as [Hin|[Heq|Hin]].
      + exfalso. rewrite forallb_forall in Hpre.
        specialize (Hpre _ Hin). discriminate Hpre.
      + injection Heq as <- <- <-. repeat split.
      + exfalso. rewrite forallb_forall in Hext.
        specialize (Hext _ Hin). discriminate Hext. }
  destruct (srv_getitem J job_name) as [[]|e3]; [|apply Hno; reflexivity].
  destruct (srv_invoke J) as [queue_item|e4].
  2: { apply (Hyes _ [EConnect base_url user_name user_token;
                      EHasJob job_name; EGetJob job_name] []); reflexivity. }
  destruct (srv_base_server_url J) as [url|e5].
  2: { apply (Hyes _ [EConnect base_url user_name user_token;
                      EHasJob job_name; EGetJob job_name]
                   [EBaseServerUrl]); reflexivity. }
  destruct (srv_block_until_building J) as [[]|e6].
  2: { apply (Hyes _ [EConnect base_url user_name user_token;
                      EHasJob job_name; EGetJob job_name]
                   [EBaseServerUrl; ELogInfo _; EBlockUntilBuilding]);
       reflexivity. }
  destruct (srv_get_build J) as [build|e7].
  2: { apply (Hyes _ [EConnect base_url user_name user_token;
                      EHasJob job_name; EGetJob job_name]
                   [EBaseServerUrl; ELogInfo _; EBlockUntilBuilding;
                    EGetBuild]); reflexivity. }
  destruct (poll_build_for_result fuel J wait_gen max_tries build _)
    as [r t9] eqn:E9.
  unfold poll_build_for_result in E9.
  apply retry_trace_extends in E9. destruct E9 as (ext & -> & Hext).
  assert (Hext' : forallb (fun ev => match ev with
                                     | EInvoke _ _ _ => false
                                     | _ => true
                                     end) ext = true).
  { rewrite forallb_forall in *. intros ev Hev. specialize (Hext ev Hev).
    destruct ev; try discriminate Hext; reflexivity. }
  destruct r as [ok|e8|].
  - destruct (srv_get_status J) as [status|e9].
    + apply (Hyes _ [EConnect base_url user_name user_token;
                     EHasJob job_name; EGetJob job_name]
                  ([EBaseServerUrl; ELogInfo _; EBlockUntilBuilding;
                    EGetBuild; ELogInfo _; ELogInfo _] ++ ext
                     ++ [EGetStatus; ELogInfo _])) ; [reflexivity|].
      cbn [forallb app andb]. rewrite forallb_app, Hext'. reflexivity.
    + apply (Hyes _ [EConnect base_url user_name user_token;
                     EHasJob job_name; EGetJob job_name]
                  ([EBaseServerUrl; ELogInfo _; EBlockUntilBuilding;
                    EGetBuild; ELogInfo _; ELogInfo _] ++ ext
                     ++ [EGetStatus])); [reflexivity|].
      cbn [forallb app andb]. rewrite forallb_app, Hext'. reflexivity.
  - apply (Hyes _ [EConnect base_url user_name user_token;
                   EHasJob job_name; EGetJob job_name]
                ([EBaseServerUrl; ELogInfo _; EBlockUntilBuilding;
                  EGetBuild; ELogInfo _; ELogInfo _] ++ ext));
      [reflexivity|].
    cbn [forallb app andb]. exact Hext'.
  - apply (Hyes _ [EConnect base_url user_name user_token;
                   EHasJob job_name; EGetJob job_name]
                ([EBaseServerUrl; ELogInfo _; EBlockUntilBuilding;
                  EGetBuild; ELogInfo _; ELogInfo _] ++ ext));
      [reflexivity|].
    cbn [forallb app andb]. exact Hext'.
Qed.

End Runs.

Section RunsOfThePoll.

Variable fuel : nat.
Variable J : jenkins_server.
Variables base_url user_name user_token job_name job_token : string.
Variable job_cause : option string.
Variable ps : list (string * string).
Variable timeout : Q.
Variable wait_gen : expo_closure.
Variable max_tries : Z.
Hypothesis schedule : _backoff_timeout timeout 2 1 = Ok (wait_gen, max_tries).

Local Abbreviation go :=
  (run (trigger_build fuel J base_url user_name user_token job_name
                      job_token job_cause (Some ps) timeout)).

Local Abbreviation unfold_run :=
  (trigger_build_run fuel J base_url user_name user_token job_name
                     job_token job_cause ps timeout wait_gen max_tries
                     schedule).

(** The sleeps of a run are the first values of the schedule, at most
    [max_tries - 1] of them. *)
Lemma trigger_build_sleeps_some :
  (1 <= max_tries)%Z ->
  exists k : nat,
    (Z.of_nat k <= max_tries - 1)%Z
    /\ sleeps (snd go) = first_waits wait_gen k.
Proof.
  intros Hm. rewrite unfold_run. cbn zeta.
  assert (Hnone : forall (r : result string) (t : list event),
             sleeps t = [] ->
             exists k : nat,
               (Z.of_nat k <= max_tries - 1)%Z
               /\ sleeps (snd (r, t)) = first_waits wait_gen k).
  { intros r t Ht. exists O. split; [lia|]. exact Ht. }
  destruct (srv_connect J) as [[]|e1]; [|apply Hnone; reflexivity].
  destruct (srv_has_job J job_name) as [[|]|e2];
    try (apply Hnone; reflexivity).
  destruct (srv_getitem J job_name) as [[]|e3]; [|apply Hnone; reflexivity].
  destruct (srv_invoke J) as [queue_item|e4]; [|apply Hnone; reflexivity].
  destruct (srv_base_server_url J) as [url|e5];
    [|apply Hnone; reflexivity].
  destruct (srv_block_until_building J) as [[]|e6];
    [|apply Hnone; reflexivity].
  destruct (srv_get_build J) as [build|e7]; [|apply Hnone; reflexivity].
  destruct (poll_build_for_result fuel J wait_gen max_tries build _)
    as [r t9] eqn:E9.
  unfold poll_build_for_result in E9.
  apply retry_sleeps_prefix in E9; [|lia].
  destruct E9 as (k & Hk & Hs). cbn [sleeps app] in Hs.
  assert (Hsome : forall (r0 : result string) (post : list event),
             sleeps post = [] ->
             exists k0 : nat,
               (Z.of_nat k0 <= max_tries - 1)%Z
               /\ sleeps (snd (r0, t9 ++ post)) = first_waits wait_gen k0).
  { intros r0 post Hpost. exists k. split; [lia|].
    cbn [snd]. rewrite sleeps_app, Hpost, app_nil_r. exact Hs. }
  destruct r as [ok|e8|].
  - destruct (srv_get_status J) as [status|e9]; apply Hsome; reflexivity.
  - rewrite <- (app_nil_r t9). apply Hsome. reflexivity.
  - rewrite <- (app_nil_r t9). apply Hsome. reflexivity.
Qed.

(** With fuel for [max_tries] polls the run ends. *)
Lemma trigger_build_finishes_some :
  (1 <= max_tries)%Z -> (Z.to_nat max_tries <= fuel)%nat ->
  fst go <> Unfinished.
Proof.
  intros Hm Hfuel. rewrite unfold_run. cbn zeta.
  destruct (srv_connect J) as [[]|e1]; [|discriminate].
  destruct (srv_has_job J job_name) as [[|]|e2]; try discriminate.
  destruct (srv_getitem J job_name) as [[]|e3]; [|discriminate].
  destruct (srv_invoke J) as [queue_item|e4]; [|discriminate].
  destruct (srv_base_server_url J) as [url|e5]; [|discriminate].
  destruct (srv_block_until_building J) as [[]|e6]; [|discriminate].
  destruct (srv_get_build J) as [build|e7]; [|discriminate].
  unfold poll_build_for_result.
  match goal with
  | |- context [retry fuel (poll_target J) _poll_giveup [build] wait_gen
                      max_tries 0 (expo wait_gen) ?t] =>
      destruct (retry_outcome J wait_gen max_tries build fuel 0%Z
                  (expo wait_gen) t ltac:(lia) ltac:(lia))
        as (k & _ & _ & _ & Hrun)
  end.
  rewrite Hrun.
  destruct (srv_is_running J _) as [[|]|e8]; try discriminate.
  destruct (srv_get_status J); discriminate.
Qed.

(** A run that returns a status has polled a finished build and returns
    what [get_status] answered. *)
Lemma trigger_build_returned_some (status : string) (t : list event) :
  go = (Returned status, t) ->
  srv_get_status J = Ok status
  /\ exists k : nat,
       (forall j, (j < k)%nat -> srv_is_running J j = Ok true)
       /\ srv_is_running J k = Ok false
       /\ polls_so_far t = S k
       /\ sleeps t = first_waits wait_gen k.
Proof.
  rewrite unfold_run. cbn zeta.
  destruct (srv_connect J) as [[]|e1]; [|discriminate].
  destruct (srv_has_job J job_name) as [[|]|e2]; try discriminate.
  destruct (srv_getitem J job_name) as [[]|e3]; [|discriminate].
  destruct (srv_invoke J) as [queue_item|e4]; [|discriminate].
  destruct (srv_base_server_url J) as [url|e5]; [|discriminate].
  destruct (srv_block_until_building J) as [[]|e6]; [|discriminate].
  destruct (srv_get_build J) as [build|e7]; [|discriminate].
  destruct (poll_build_for_result fuel J wait_gen max_tries build _)
    as [[ok|e8|] t9] eqn:E9; try discriminate.
  unfold poll_build_for_result in E9.
  apply retry_returned in E9.
  destruct E9 as (_ & k & Hbefore & Hk & ->).
  destruct (srv_get_status J) as [status'|e9]; [|discriminate].
  intros H. apply pair_equal_spec in H. destruct H as [H1 H2].
  injection H1 as <-. subst t.
  split; [reflexivity|]. exists k.
  split; [exact Hbefore|]. split; [exact Hk|]. split.
  - rewrite !polls_so_far_app, polls_poll_trace. cbn. lia.
  - rewrite !sleeps_app, sleeps_poll_trace. cbn [sleeps app].
    rewrite app_nil_r. reflexivity.
Qed.

(** The run in which every step works and the build finishes at poll
    [k]. *)
Lemma trigger_build_success_some
      (queue_item url status : string) (build : Build) (k : nat) :
  srv_connect J = Ok tt ->
  srv_has_job J job_name = Ok true ->
  srv_getitem J job_name = Ok tt ->
  srv_invoke J = Ok queue_item ->
  srv_base_server_url J = Ok url ->
  srv_block_until_building J = Ok tt ->
  srv_get_build J = Ok build ->
  (forall j, (j < k)%nat -> srv_is_running J j = Ok true) ->
  srv_is_running J k = Ok false ->
  srv_get_status J = Ok status ->
  (Z.of_nat k < max_tries)%Z -> (k < fuel)%nat ->
  exists t,
    go = (Returned status, t)
    /\ polls_so_far t = S k
    /\ sleeps t = first_waits wait_gen k
    /\ invokes t = 1%nat
    /\ last t (ELogInfo "") = ELogInfo ("Build status: " ++ status).
Proof.
  intros Hc Hj Hg Hi Hu Hb Hbuild Hbefore Hk Hs Hlt Hfuel.
  rewrite unfold_run. cbn zeta.
  rewrite Hc, Hj, Hg, Hi, Hu, Hb, Hbuild.
  unfold poll_build_for_result.
  match goal with
  | |- context [retry fuel (poll_target J) _poll_giveup [build] wait_gen
                      max_tries 0 (expo wait_gen) ?t0] =>
      rewrite (retry_succeeds J wait_gen max_tries build k fuel 0%Z
                 (expo wait_gen) t0 Hfuel ltac:(lia) Hbefore Hk)
  end.
  rewrite Hs. eexists. split; [reflexivity|].
  split; [|split; [|split]].
  - rewrite !polls_so_far_app, polls_poll_trace. cbn. lia.
  - rewrite !sleeps_app, sleeps_poll_trace. cbn [sleeps app].
    rewrite app_nil_r. reflexivity.
  - rewrite !invokes_app.
    rewrite invokes_poll_trace. reflexivity.
  - change [EGetStatus; ELogInfo ("Build status: " ++ status)]
      with ([EGetStatus] ++ [ELogInfo ("Build status: " ++ status)]).
    rewrite app_assoc. apply last_last.
Qed.

End RunsOfThePoll.

(** X9.  In every run of [trigger_build] the job is invoked at most once; and
    when it is invoked, the server has accepted the connection and answered
    that it has the job, and [invoke] gets the job token, the cause and the
    dictionary made from [job_params]. *)
Theorem trigger_build_invokes_once
        (fuel : nat) (J : jenkins_server)
        (base_url user_name user_token job_name job_token : string)
        (job_cause : option string)
        (job_params : option (list (string * string))) (timeout : Q) :
  let t := snd (run (trigger_build fuel J base_url user_name user_token
                                   job_name job_token job_cause job_params
                                   timeout)) in
  (invokes t <= 1)%nat
  /\ forall tok rp cause,
       In (EInvoke tok rp cause) t ->
       srv_connect J = Ok tt
       /\ srv_has_job J job_name = Ok true
       /\ tok = job_token /\ cause = job_cause
       /\ build_request_params job_params = Ok rp.
Proof.
  intros t. subst t.
  destruct (_backoff_timeout timeout 2 1) as [[g m]|e] eqn:Es.
  - destruct job_params as [ps|].
    + destruct (trigger_build_invokes_some
                  fuel J base_url user_name user_token job_name job_token
                  job_cause ps timeout g m Es) as [H1 H2].
      split; [exact H1|]. intros tok rp cause Hin.
      destruct (H2 tok rp cause Hin) as (Hc & Hj & -> & -> & ->).
      repeat split; assumption.
    + unfold_trigger. rewrite Es. cbn.
      split; [lia|]. intros tok rp cause [].
  - unfold_trigger. rewrite Es. cbn.
    split; [lia|]. intros tok rp cause [].
Qed.

(** X10.  For [timeout >= 0] every run of [trigger_build] ends once the
    polling loop has fuel for [max_tries] polls: it returns or raises,
    whatever the server answers. *)
Theorem trigger_build_terminates (timeout : Q) :
  0 <= timeout ->
  exists wait_gen max_tries,
    _backoff_timeout timeout 2 1 = Ok (wait_gen, max_tries)
    /\ forall (fuel : nat) (J : jenkins_server)
              (base_url user_name user_token job_name job_token : string)
              (job_cause : option string)
              (job_params : option (list (string * string))),
         (Z.to_nat max_tries <= fuel)%nat ->
         fst (run (trigger_build fuel J base_url user_name user_token
                                 job_name job_token job_cause job_params
                                 timeout))
         <> Unfinished.
Proof.
  intros Ht.
  destruct (default_schedule_allows_a_poll timeout Ht)
    as (g & m & Hs & Hm & _).
  exists g, m. split; [exact Hs|].
  intros fuel J base_url user_name user_token job_name job_token job_cause
         [ps|] Hfuel.
  - apply (trigger_build_finishes_some
             fuel J base_url user_name user_token job_name job_token
             job_cause ps timeout g m Hs Hm Hfuel).
  - unfold_trigger. rewrite Hs. cbn. discriminate.
Qed.

Lemma trigger_build_terminates_witness :
  exists wait_gen max_tries,
    _backoff_timeout 10 2 1 = Ok (wait_gen, max_tries)
    /\ forall (fuel : nat) (J : jenkins_server)
              (base_url user_name user_token job_name job_token : string)
              (job_cause : option string)
              (job_params : option (list (string * string))),
         (Z.to_nat max_tries <= fuel)%nat ->
         fst (run (trigger_build fuel J base_url user_name user_token
                                 job_name job_token job_cause job_params 10))
         <> Unfinished.
Proof.
  apply (trigger_build_terminates 10). unfold Qle; simpl; lia.
Defined.

(** X12.  When [trigger_build] returns a status, that status is the answer
    of [get_status], and it was asked only after a poll found the build
    finished: the build answered "running" to the polls before number [k]
    and "not running" to poll [k], the run made [k + 1] polls and slept on
    the first [k] values of the schedule. *)
Theorem trigger_build_returns_finished_status
        (fuel : nat) (J : jenkins_server)
        (base_url user_name user_token job_name job_token : string)
        (job_cause : option string)
        (job_params : option (list (string * string))) (timeout : Q)
        (status : string) (t : list event) :
  run (trigger_build fuel J base_url user_name user_token job_name job_token
                     job_cause job_params timeout)
  = (Returned status, t) ->
  srv_get_status J = Ok status
  /\ exists (k : nat) (wait_gen : expo_closure) (max_tries : Z),
       _backoff_timeout timeout 2 1 = Ok (wait_gen, max_tries)
       /\ (forall j, (j < k)%nat -> srv_is_running J j = Ok true)
       /\ srv_is_running J k = Ok false
       /\ polls_so_far t = S k
       /\ sleeps t = first_waits wait_gen k.
Proof.
  intros H.
  destruct (_backoff_timeout timeout 2 1) as [[g m]|e] eqn:Es.
  - destruct job_params as [ps|].
    + destruct (trigger_build_returned_some
                  fuel J base_url user_name user_token job_name job_token
                  job_cause ps timeout g m Es status t H)
        as (Hst & k & Hbefore & Hk & Hp & Hsl).
      split; [exact Hst|]. exists k, g, m. repeat split; assumption.
    + revert H. unfold_trigger. rewrite Es. cbn. discriminate.
  - revert H. unfold_trigger. rewrite Es. cbn. discriminate.
Qed.

Lemma trigger_build_returns_finished_status_witness :
  srv_get_status (Samples.server true (fun j => Nat.ltb j 2)) = Ok "SUCCESS"%string
  /\ exists (k : nat) (wait_gen : expo_closure) (max_tries : Z),
       _backoff_timeout 10 2 1 = Ok (wait_gen, max_tries)
       /\ (forall j, (j < k)%nat ->
                     srv_is_running (Samples.server true (fun j => Nat.ltb j 2)) j
                     = Ok true)
       /\ srv_is_running (Samples.server true (fun j => Nat.ltb j 2)) k
          = Ok false
       /\ polls_so_far
            (snd (run (trigger_build
                         5 (Samples.server true (fun j => Nat.ltb j 2))
                         "https://jenkins.example" "user" "token"
                         "test-project" "job-token" None (Some []) 10)))
          = S k
       /\ sleeps
            (snd (run (trigger_build
                         5 (Samples.server true (fun j => Nat.ltb j 2))
                         "https://jenkins.example" "user" "token"
                         "test-project" "job-token" None (Some []) 10)))
          = first_waits wait_gen k.
Proof.
  apply (trigger_build_returns_finished_status
           5 (Samples.server true (fun j => Nat.ltb j 2))
           "https://jenkins.example" "user" "token" "test-project"
           "job-token" None (Some []) 10 "SUCCESS").
  vm_compute. reflexivity.
Defined.

(** X13.  When every step works and the build answers "running" to the
    polls before number [k] and "not running" to poll [k], with [k] below
    [max_tries] (and fuel for [k + 1] polls), [trigger_build] returns the
    answer of [get_status]; the run invokes the job once, makes [k + 1]
    polls, sleeps on the first [k] values of the schedule, and ends by
    logging the status. *)
Theorem trigger_build_success
        (fuel : nat) (J : jenkins_server)
        (base_url user_name user_token job_name job_token : string)
        (job_cause : option string) (ps : list (string * string))
        (timeout : Q) (wait_gen : expo_closure) (max_tries : Z)
        (queue_item url status : string) (build : Build) (k : nat) :
  _backoff_timeout timeout 2 1 = Ok (wait_gen, max_tries) ->
  srv_connect J = Ok tt ->
  srv_has_job J job_name = Ok true ->
  srv_getitem J job_name = Ok tt ->
  srv_invoke J = Ok queue_item ->
  srv_base_server_url J = Ok url ->
  srv_block_until_building J = Ok tt ->
  srv_get_build J = Ok build ->
  (forall j, (j < k)%nat -> srv_is_running J j = Ok true) ->
  srv_is_running J k = Ok false ->
  srv_get_status J = Ok status ->
  (Z.of_nat k < max_tries)%Z -> (k < fuel)%nat ->
  exists t,
    run (trigger_build fuel J base_url user_name user_token job_name
                       job_token job_cause (Some ps) timeout)
    = (Returned status, t)
    /\ polls_so_far t = S k
    /\ sleeps t = first_waits wait_gen k
    /\ invokes t = 1%nat
    /\ last t (ELogInfo "") = ELogInfo ("Build status: " ++ status).
Proof.
  intros Hs. apply trigger_build_success_some. exact Hs.
Qed.

Lemma trigger_build_success_witness :
  exists t,
    run (trigger_build 5 (Samples.server true (fun j => Nat.ltb j 2))
                       "https://jenkins.example" "user" "token"
                       "test-project" "job-token" None
                       (Some [("FOO", "bar")]%string) 10)
    = (Returned "SUCCESS"%string, t)
    /\ polls_so_far t = 3%nat
    /\ sleeps t = first_waits (mk_expo 1 2 3 3) 2
    /\ invokes t = 1%nat
    /\ last t (ELogInfo "") = ELogInfo ("Build status: " ++ "SUCCESS").
Proof.
  apply (trigger_build_success
           5 (Samples.server true (fun j => Nat.ltb j 2))
           "https://jenkins.example" "user" "token" "test-project"
           "job-token" None [("FOO", "bar")]%string 10
           (mk_expo 1 2 3 3) 5
           "queue item 3" "https://jenkins.example" "SUCCESS"
           Samples.build7 2);
    try reflexivity; try lia.
  intros [|[|j]] Hj; try reflexivity. lia.
Defined.

(** ** The request parameters *)

Lemma dict_get_set (d : list (string * string)) (k v k' : string) :
  dict_get (dict_set d k v) k'
  = if String.eqb k k' then Some v else dict_get d k'.
Proof.
  induction d as [|[k0 v0] d IH]; [reflexivity|].
  cbn [dict_set].
  destruct (String.eqb_spec k0 k) as [->|Hne].
  - cbn [dict_get]. destruct (String.eqb k k'); reflexivity.
  - cbn [dict_get]. rewrite IH.
    destruct (String.eqb_spec k0 k') as [->|Hne'].
    + destruct (String.eqb_spec k k') as [->|_]; [contradiction|reflexivity].
    + reflexivity.
Qed.

Lemma dict_set_keys (d : list (string * string)) (k v k' : string) :
  In k' (map fst (dict_set d k v)) <-> k' = k \/ In k' (map fst d).
Proof.
  induction d as [|[k0 v0] d IH].
  - cbn. intuition congruence.
  - cbn [dict_set].
    destruct (String.eqb_spec k0 k) as [->|Hne]; cbn [map fst In].
    + intuition congruence.
    + rewrite IH. intuition congruence.
Qed.

Lemma dict_set_NoDup (d : list (string * string)) (k v : string) :
  NoDup (map fst d) -> NoDup (map fst (dict_set d k v)).
Proof.
  induction d as [|[k0 v0] d IH]; intros H.
  - cbn. constructor; [intros []|constructor].
  - cbn [dict_set]. cbn [map fst] in H. inversion H as [|? ? Hnin Hd]; subst.
    destruct (String.eqb_spec k0 k) as [->|Hne]; cbn [map fst].
    + constructor; assumption.
    + constructor; [|apply IH; exact Hd].
      rewrite dict_set_keys. intros [E|Hin]; [congruence|contradiction].
Qed.

Lemma fold_dict_set (ps : list (string * string)) :
  forall d : list (string * string),
    NoDup (map fst d) ->
    let d' := fold_left (fun d p => dict_set d (fst p) (snd p)) ps d in
    NoDup (map fst d')
    /\ (forall k, dict_get d' k
                  = match last_value ps k with
                    | Some v => Some v
                    | None => dict_get d k
                    end)
    /\ (forall k, In k (map fst d') <-> In k (map fst ps) \/ In k (map fst d)).
Proof.
  induction ps as [|[k0 v0] ps IH]; intros d Hd; cbn zeta.
  - cbn. split; [exact Hd|]. split; [reflexivity|]. intros k. tauto.
  - cbn [fold_left fst snd].
    destruct (IH (dict_set d k0 v0) (dict_set_NoDup d k0 v0 Hd))
      as (H1 & H2 & H3).
    split; [exact H1|]. split.
    + intros k. rewrite H2, dict_get_set. cbn [last_value].
      destruct (last_value ps k); [reflexivity|].
      destruct (String.eqb k0 k); reflexivity.
    + intros k. rewrite H3, dict_set_keys. cbn [map fst In].
      intuition congruence.
Qed.

(** X14.  The dictionary that [trigger_build] makes from [job_params] has
    each name once, has exactly the names that occur in [job_params], and
    maps a name to the value of its last pair in [job_params]. *)
Theorem request_params_last_wins (ps : list (string * string)) :
  exists d,
    build_request_params (Some ps) = Ok d
    /\ NoDup (map fst d)
    /\ (forall k, dict_get d k = last_value ps k)
    /\ (forall k, In k (map fst d) <-> In k (map fst ps)).
Proof.
  eexists. split; [reflexivity|].
  destruct (fold_dict_set ps [] (NoDup_nil _)) as (H1 & H2 & H3).
  cbn zeta in *. split; [exact H1|]. split.
  - intros k. rewrite H2. cbn [dict_get].
    destruct (last_value ps k); reflexivity.
  - intros k. rewrite H3. cbn. tauto.
Qed.

(** ** The waits of the polling loop and the timeout *)


